(** * Relay services for GitHub and GitLab: a shallow embedding

    The two Flask services [gh_interacter.py] and [gl_interacter.py] are
    embedded as functions in a small state-and-exception monad that logs the
    upstream HTTP calls a handler performs.  The upstream provider is an
    oracle that answers each call (it may look at the calls already made).

    Conventions of the embedding:
    - a Python [str] is the [string] of its UTF-8 bytes, so [.decode('utf-8')]
      is validation followed by the identity;
    - Python objects that travel through the handlers (JSON bodies and their
      fields) are terms of [value]; a query parameter or an environment
      variable is a [str] or [None], that is an [option string]; JSON floats
      are left out;
    - an exception that leaves a view function is the outcome [inl e] (the
      framework answers it with its own 500 page); an abort with status
      [s], by [abort(401)] in the decorator or by the framework inside
      [request.json], is the response [Abort s];
    - what the framework does before a view is called (routing, parsing of
      the query string) is taken as given: a request is the three things
      the handlers read of it.  The body is the exception: [request.json]
      is evaluated inside the view, where it gives the parsed body or
      aborts the request. *)

From Stdlib Require Import ZArith NArith List String Ascii Bool Lia DecimalString.
Import ListNotations.
Set Warnings "-register-all".
Open Scope Z_scope.
Open Scope string_scope.

(** ** Python values and the library functions the services use *)

Module Py.

Inductive value : Type :=
| VNone
| VBool (b : bool)
| VInt (n : Z)
| VStr (s : string)
| VList (items : list value)
| VDict (fields : list (string * value)).

Inductive PyExc : Type :=
| TypeError
| KeyError
| AttributeError
| ValueError
| BinasciiError
| UnicodeDecodeError
| JSONDecodeError.

(** The outcome of an expression that may raise. *)
Definition Res (A : Type) : Type := (PyExc + A)%type.

Definition of_opt (o : option string) : value :=
  match o with
  | Some s => VStr s
  | None => VNone
  end.

(** [bool(v)]: the truth value tested by [not v]. *)
Definition truthy (v : value) : bool :=
  match v with
  | VNone => false
  | VBool b => b
  | VInt n => negb (n =? 0)%Z
  | VStr s => negb (s =? "")
  | VList items => match items with [] => false | _ => true end
  | VDict fields => match fields with [] => false | _ => true end
  end.

(** [v == 'literal'] for a string literal. *)
Definition eq_str (v : value) (lit : string) : bool :=
  match v with
  | VStr s => s =? lit
  | _ => false
  end.

(** [a == b] where both sides are [str] or [None]. *)
Definition eq_opt (a b : option string) : bool :=
  match a, b with
  | Some x, Some y => x =? y
  | None, None => true
  | _, _ => false
  end.

(** [str(o)] for a value that is a [str] or [None]. *)
Definition str_opt (o : option string) : string :=
  match o with
  | Some s => s
  | None => "None"
  end.

(** [bool(o)] for a value that is a [str] or [None]. *)
Definition truthy_opt (o : option string) : bool := truthy (of_opt o).

(** ['/' in s] and [s.split('/')]. *)
Fixpoint contains_slash (s : string) : bool :=
  match s with
  | EmptyString => false
  | String c rest => Ascii.eqb c "/" || contains_slash rest
  end.

Fixpoint split_slash (s : string) : list string :=
  match s with
  | EmptyString => [EmptyString]
  | String c rest =>
      if Ascii.eqb c "/" then EmptyString :: split_slash rest
      else
        match split_slash rest with
        | piece :: more => String c piece :: more
        | [] => [String c EmptyString]
        end
  end.

Section Format.

(** [repr] of a list or a dict; it is applied only when a client sends a
    container where an identifier is expected, and is kept abstract. *)
Variable py_repr : value -> string.

(** [str(v)], as an f-string placeholder renders it. *)
Definition str (v : value) : string :=
  match v with
  | VNone => "None"
  | VBool true => "True"
  | VBool false => "False"
  | VInt n => NilZero.string_of_int (Z.to_int n)
  | VStr s => s
  | VList _ | VDict _ => py_repr v
  end.

End Format.

(** Dictionaries are association lists with distinct keys. *)
Fixpoint lookup (k : string) (fields : list (string * value)) : option value :=
  match fields with
  | [] => None
  | (k', v) :: rest => if k' =? k then Some v else lookup k rest
  end.

(** [d.get(k, default)]; only a dict has the method. *)
Definition dict_get (d : value) (k : string) (default : value) : Res value :=
  match d with
  | VDict fields =>
      inr (match lookup k fields with Some v => v | None => default end)
  | _ => inl AttributeError
  end.

(** [d[k]] with a string key. *)
Definition getitem (d : value) (k : string) : Res value :=
  match d with
  | VDict fields =>
      match lookup k fields with
      | Some v => inr v
      | None => inl KeyError
      end
  | _ => inl TypeError
  end.

Definition is_continuation (c : ascii) : bool :=
  let n := N_of_ascii c in ((128 <=? n) && (n <=? 191))%N.

(** The characters of a string: each lead byte with its continuation bytes. *)
Fixpoint utf8_chars (s : string) : list string :=
  match s with
  | EmptyString => []
  | String c rest =>
      match utf8_chars rest with
      | [] => [String c EmptyString]
      | ch :: more =>
          match ch with
          | String c' _ =>
              if is_continuation c' then String c ch :: more
              else String c EmptyString :: ch :: more
          | EmptyString => String c EmptyString :: more
          end
      end
  end.

(** The items a [for] loop or a comprehension visits. *)
Definition iter (v : value) : Res (list value) :=
  match v with
  | VList items => inr items
  | VDict fields => inr (map (fun kv => VStr (fst kv)) fields)
  | VStr s => inr (map VStr (utf8_chars s))
  | _ => inl TypeError
  end.

(** [sep.join(items)]: every item must be a [str]. *)
Fixpoint join (sep : string) (items : list value) : Res string :=
  match items with
  | [] => inr ""
  | VStr s :: rest =>
      match rest with
      | [] => inr s
      | _ => match join sep rest with
             | inr t => inr (s ++ sep ++ t)
             | inl e => inl e
             end
      end
  | _ :: _ => inl TypeError
  end.

(** *** urllib.parse.quote_plus *)

Definition in_range (lo hi : N) (c : ascii) : bool :=
  let n := N_of_ascii c in ((lo <=? n) && (n <=? hi))%N.

Definition always_safe (c : ascii) : bool :=
  in_range 65 90 c || in_range 97 122 c || in_range 48 57 c
  || Ascii.eqb c "_" || Ascii.eqb c "." || Ascii.eqb c "-" || Ascii.eqb c "~".

Definition hex_digit (n : N) : ascii :=
  if (n <? 10)%N then ascii_of_N (48 + n) else ascii_of_N (55 + n).

Fixpoint quote_bytes (s : string) : string :=
  match s with
  | EmptyString => EmptyString
  | String c rest =>
      if always_safe c then String c (quote_bytes rest)
      else if Ascii.eqb c " " then String "+" (quote_bytes rest)
      else
        let n := N_of_ascii c in
        String "%" (String (hex_digit (n / 16)) (String (hex_digit (n mod 16))
          (quote_bytes rest)))
  end.

Definition quote_plus (v : value) : Res string :=
  match v with
  | VStr s => inr (quote_bytes s)
  | _ => inl TypeError
  end.

(** *** base64.b64decode (binascii.a2b_base64 of CPython 3.11, not strict) *)

Definition b64_index (c : ascii) : option N :=
  let n := N_of_ascii c in
  if in_range 65 90 c then Some (n - 65)%N
  else if in_range 97 122 c then Some (n - 71)%N
  else if in_range 48 57 c then Some (n + 4)%N
  else if Ascii.eqb c "+" then Some 62%N
  else if Ascii.eqb c "/" then Some 63%N
  else None.

Definition byte_of (n : N) : ascii := ascii_of_N (n mod 256).

(** One pass over the input.  [quad_pos] counts the sextets of the current
    group, [leftchar] holds the bits not yet written, [pads] the '=' signs
    seen since the last sextet, [out] the bytes written so far.  A complete
    pad sequence ends the input; other foreign characters are skipped. *)
Fixpoint a2b_loop (s : string) (quad_pos : N) (leftchar : N) (pads : N)
    (out : string) : Res string :=
  match s with
  | EmptyString =>
      if (quad_pos =? 0)%N then inr out else inl BinasciiError
  | String c rest =>
      if Ascii.eqb c "=" then
        if ((2 <=? quad_pos) && (4 <=? quad_pos + (pads + 1)))%N then inr out
        else if (2 <=? quad_pos)%N then a2b_loop rest quad_pos leftchar (pads + 1) out
        else a2b_loop rest quad_pos leftchar pads out
      else
        match b64_index c with
        | None => a2b_loop rest quad_pos leftchar pads out
        | Some this_ch =>
            if (quad_pos =? 0)%N then
              a2b_loop rest 1 this_ch 0 out
            else if (quad_pos =? 1)%N then
              a2b_loop rest 2 (N.land this_ch 15) 0
                (out ++ String (byte_of (N.lor (N.shiftl leftchar 2) (N.shiftr this_ch 4))) "")
            else if (quad_pos =? 2)%N then
              a2b_loop rest 3 (N.land this_ch 3) 0
                (out ++ String (byte_of (N.lor (N.shiftl leftchar 4) (N.shiftr this_ch 2))) "")
            else
              a2b_loop rest 0 0 0
                (out ++ String (byte_of (N.lor (N.shiftl leftchar 6) this_ch)) "")
        end
  end.

Definition is_ascii (s : string) : bool :=
  forallb (fun c => (N_of_ascii c <? 128)%N) (list_ascii_of_string s).

(** [base64.b64decode(v)]: a [str] argument is first encoded as ASCII. *)
Definition b64decode (v : value) : Res string :=
  match v with
  | VStr s => if is_ascii s then a2b_loop s 0 0 0 "" else inl ValueError
  | _ => inl TypeError
  end.

(** *** bytes.decode('utf-8') *)

(** Well-formed UTF-8: no overlong forms, no surrogates, nothing above
    U+10FFFF. *)
Fixpoint utf8_valid (s : string) : bool :=
  match s with
  | EmptyString => true
  | String c0 r0 =>
      if in_range 0 127 c0 then utf8_valid r0
      else
        match r0 with
        | String c1 r1 =>
            if in_range 194 223 c0 then in_range 128 191 c1 && utf8_valid r1
            else
              match r1 with
              | String c2 r2 =>
                  if in_range 224 239 c0 then
                    (if Ascii.eqb c0 (ascii_of_N 224) then in_range 160 191 c1
                     else if Ascii.eqb c0 (ascii_of_N 237) then in_range 128 159 c1
                     else in_range 128 191 c1)
                    && in_range 128 191 c2 && utf8_valid r2
                  else
                    match r2 with
                    | String c3 r3 =>
                        in_range 240 244 c0
                        && (if Ascii.eqb c0 (ascii_of_N 240) then in_range 144 191 c1
                            else if Ascii.eqb c0 (ascii_of_N 244) then in_range 128 143 c1
                            else in_range 128 191 c1)
                        && in_range 128 191 c2 && in_range 128 191 c3
                        && utf8_valid r3
                    | EmptyString => false
                    end
              | EmptyString => false
              end
        | EmptyString => false
        end
  end.

Definition decode_utf8 (bytes : string) : Res string :=
  if utf8_valid bytes then inr bytes else inl UnicodeDecodeError.

End Py.

(** ** Requests, upstream calls and the handler monad *)

Module Http.
Import Py.

Inductive Method : Type := GET | POST.

(** One call of [requests.get] or [requests.post]. *)
Record Call : Type := mkCall {
  c_method : Method;
  c_url : string;
  c_headers : list (string * option string);
  c_json : option value
}.

(** What the handlers read of an upstream response: [status_code], [text]
    and the result of [json()] ([None] when the body does not parse). *)
Record UpResponse : Type := mkUp {
  status_code : Z;
  text : string;
  parsed : option value
}.

Definition json (r : UpResponse) : Res value :=
  match parsed r with
  | Some v => inr v
  | None => inl JSONDecodeError
  end.

(** The provider: it answers a call, knowing the calls made before it. *)
Definition Upstream : Type := list Call -> Call -> UpResponse.

(** Handlers run against the provider, log their calls and may raise. *)
Definition M (A : Type) : Type := Upstream -> list Call -> Res A * list Call.

Definition ret {A : Type} (a : A) : M A := fun _ log => (inr a, log).

Definition raise {A : Type} (e : PyExc) : M A := fun _ log => (inl e, log).

Definition bind {A B : Type} (m : M A) (k : A -> M B) : M B :=
  fun up log =>
    match m up log with
    | (inr a, log') => k a up log'
    | (inl e, log') => (inl e, log')
    end.

Definition lift {A : Type} (r : Res A) : M A :=
  match r with
  | inr a => ret a
  | inl e => raise e
  end.

Notation "x <- m ;; k" := (bind m (fun x => k))
  (at level 61, m at next level, right associativity).

Definition send (c : Call) : M UpResponse :=
  fun up log => (inr (up log c), (log ++ [c])%list).

Definition requests_get (url : string) (headers : list (string * option string))
    : M UpResponse :=
  send (mkCall GET url headers None).

Definition requests_post (url : string) (headers : list (string * option string))
    (data : value) : M UpResponse :=
  send (mkCall POST url headers (Some data)).

Definition run {A : Type} (up : Upstream) (m : M A) : Res A * list Call :=
  m up [].

(** The process environment, [os.environ]. *)
Definition Env : Type := string -> option string.

(** What evaluating [request.json] gives inside a view: the parsed body,
    or the refusal of the framework, which aborts the request with 415
    when the body is not declared as JSON and with 400 when it does not
    parse. *)
Inductive Body : Type :=
| Parsed (v : value)
| Unsupported
| Malformed.

(** An inbound request: [request.headers.get('X-Api-Key')], the query
    string [request.args] and the body behind [request.json]. *)
Record Request : Type := mkRequest {
  x_api_key : option string;
  args : list (string * string);
  json_body : Body
}.

Fixpoint args_get (k : string) (l : list (string * string)) : option string :=
  match l with
  | [] => None
  | (k', v) :: rest => if k' =? k then Some v else args_get k rest
  end.

(** What a view function hands to the framework: [jsonify(body), status]
    (status 200 when none is given) or [abort(status)]. *)
Inductive Response : Type :=
| Json (body : value) (status : Z)
| Abort (status : Z).

(** [{'code': code, 'message': message}] *)
Definition code_message (code : Z) (message : string) : value :=
  VDict [("code", VInt code); ("message", VStr message)].

End Http.

(** The loop that sorts tree entries into directories and files; both
    services end [get_repo_structure] with it.  The two lists are the
    values of [repo_structure['directories']] and [repo_structure['files']]. *)

Module Tree.
Import Py.

Fixpoint partition_loop (items : list value) (directories files : list value)
    : Res (list value * list value) :=
  match items with
  | [] => inr (directories, files)
  | item :: rest =>
      match getitem item "type" with
      | inl e => inl e
      | inr ty =>
          if eq_str ty "tree" then
            match getitem item "path" with
            | inl e => inl e
            | inr path => partition_loop rest (directories ++ [path])%list files
            end
          else if eq_str ty "blob" then
            match getitem item "path" with
            | inl e => inl e
            | inr path => partition_loop rest directories (files ++ [path])%list
            end
          else partition_loop rest directories files
      end
  end.

(** [for item in tree: ...] followed by [jsonify(repo_structure)]. *)
Definition repo_structure_of (tree : value) : Res value :=
  match iter tree with
  | inl e => inl e
  | inr items =>
      match partition_loop items [] [] with
      | inl e => inl e
      | inr (directories, files) =>
          inr (VDict [("directories", VList directories); ("files", VList files)])
      end
  end.

End Tree.

(** ** gh_interacter.py *)

Module GitHub.
Import Py Http.

Inductive Route : Type :=
| pr_content
| file_content
| issue_info
| submit_pr_comment_route
| repo_structure.

Section Service.

Variable py_repr : value -> string.
Variable environ : Env.

Definition RHINO_API_KEY : option string := environ "RHINO_API_KEY".

Definition require_api_key (view_function : Request -> M Response)
    (req : Request) : M Response :=
  if truthy_opt (x_api_key req) && eq_opt (x_api_key req) RHINO_API_KEY
  then view_function req
  else ret (Abort 401).

Definition branch_url (repo_full_name : option string) (branch_name : string)
    : string :=
  "https://api.github.com/repos/" ++ str_opt repo_full_name
    ++ "/branches/" ++ branch_name.

Definition token_headers : list (string * option string) :=
  [("Authorization", Some ("token " ++ str_opt (environ "GITHUB_TOKEN")))].

Definition check_branch_exists (repo_full_name : option string)
    (branch_name : string) : M bool :=
  let github_api_url := branch_url repo_full_name branch_name in
  let headers := token_headers in
  response <- requests_get github_api_url headers ;;
  ret (status_code response =? 200)%Z.

Definition pull_url (repo_full_name pr_number : option string) : string :=
  "https://api.github.com/repos/" ++ str_opt repo_full_name
    ++ "/pulls/" ++ str_opt pr_number.

Definition get_pr_content (req : Request) : M Response :=
  let repo_full_name := args_get "repo_full_name" (args req) in
  let pr_number := args_get "pr_number" (args req) in
  if negb (truthy_opt repo_full_name) || negb (truthy_opt pr_number) then
    ret (Json (code_message 400 "Missing repo_full_name or pr_number") 400)
  else
    let github_api_url := pull_url repo_full_name pr_number in
    let headers := token_headers in
    response <- requests_get github_api_url headers ;;
    if (status_code response =? 404)%Z then
      ret (Json (code_message 404 "Pull Request not found") 404)
    else if negb (status_code response =? 200)%Z then
      ret (Json (code_message (status_code response) "Unexpected error occurred")
             (status_code response))
    else
      let diff_headers :=
        [("Authorization", Some ("token " ++ str_opt (environ "GITHUB_TOKEN")));
         ("Accept", Some "application/vnd.github.v3.diff")] in
      diff_response <- requests_get github_api_url diff_headers ;;
      if negb (status_code diff_response =? 200)%Z then
        ret (Json (code_message (status_code diff_response) "Failed to get PR diff")
               (status_code diff_response))
      else
        pr <- lift (json response) ;;
        head <- lift (dict_get pr "head" (VDict [])) ;;
        source_branch <- lift (dict_get head "ref" VNone) ;;
        head' <- lift (dict_get pr "head" (VDict [])) ;;
        repo <- lift (dict_get head' "repo" (VDict [])) ;;
        source_repo <- lift (dict_get repo "full_name" VNone) ;;
        title <- lift (dict_get pr "title" VNone) ;;
        body <- lift (dict_get pr "body" VNone) ;;
        ret (Json (VDict [("title", title);
                          ("body", body);
                          ("source_branch", source_branch);
                          ("source_repo", source_repo);
                          ("code_changes", VStr (text diff_response))]) 200).

Definition contents_url (repo_full_name file_path : option string)
    (branch_name : string) : string :=
  "https://api.github.com/repos/" ++ str_opt repo_full_name
    ++ "/contents/" ++ str_opt file_path ++ "?ref=" ++ branch_name.

(** The body of the [try] statement and its [except UnicodeDecodeError]. *)
Definition decode_content (file_path : option string)
    (file_content_encoded : value) : M Response :=
  match
    match b64decode file_content_encoded with
    | inr bytes => decode_utf8 bytes
    | inl e => inl e
    end
  with
  | inr file_content_decoded =>
      ret (Json (VDict [("content", VStr file_content_decoded)]) 200)
  | inl UnicodeDecodeError =>
      ret (Json (VDict [("error",
             VStr ("无法显示 " ++ str_opt file_path
                   ++ " 的内容，这可能是一个二进制文件"))]) 500)
  | inl e => raise e
  end.

Definition get_file_content (req : Request) : M Response :=
  let repo_full_name := args_get "repo_full_name" (args req) in
  let file_path := args_get "file_path" (args req) in
  let branch_name := args_get "branch_name" (args req) in
  let continue (branch_name : string) : M Response :=
    if negb (truthy_opt repo_full_name) || negb (truthy_opt file_path) then
      ret (Json (code_message 400 "Missing repo_full_name or file_path") 400)
    else
      let github_api_url := contents_url repo_full_name file_path branch_name in
      let headers := token_headers in
      response <- requests_get github_api_url headers ;;
      if negb (status_code response =? 200)%Z then
        ret (Json (code_message (status_code response)
                     ("Failed to fetch file content from " ++ branch_name ++ " branch"))
               (status_code response))
      else
        body <- lift (json response) ;;
        file_content_encoded <- lift (dict_get body "content" VNone) ;;
        match file_content_encoded with
        | VNone => ret (Json (code_message 500 "No content found in the response") 500)
        | _ => decode_content file_path file_content_encoded
        end
  in
  if negb (truthy_opt branch_name) then
    main <- check_branch_exists repo_full_name "main" ;;
    if main then continue "main"
    else
      master <- check_branch_exists repo_full_name "master" ;;
      if master then continue "master"
      else ret (Json (code_message 404 "No main or master branch found") 404)
  else continue (str_opt branch_name).

Definition issue_url (repo_full_name issue_number : option string) : string :=
  "https://api.github.com/repos/" ++ str_opt repo_full_name
    ++ "/issues/" ++ str_opt issue_number.

Definition get_issue_info (req : Request) : M Response :=
  let repo_full_name := args_get "repo_full_name" (args req) in
  let issue_number := args_get "issue_number" (args req) in
  if negb (truthy_opt repo_full_name) || negb (truthy_opt issue_number) then
    ret (Json (code_message 400 "Missing repo_full_name or issue_number") 400)
  else
    let github_api_url := issue_url repo_full_name issue_number in
    let headers := token_headers in
    response <- requests_get github_api_url headers ;;
    if negb (status_code response =? 200)%Z then
      ret (Json (code_message (status_code response) "Failed to fetch issue info")
             (status_code response))
    else
      issue <- lift (json response) ;;
      title <- lift (dict_get issue "title" VNone) ;;
      description <- lift (dict_get issue "body" VNone) ;;
      ret (Json (VDict [("title", title); ("description", description)]) 200).

Definition comment_url (repo_full_name pr_number : value) : string :=
  "https://api.github.com/repos/" ++ str py_repr repo_full_name
    ++ "/issues/" ++ str py_repr pr_number ++ "/comments".

Definition submit_pr_comment (req : Request) : M Response :=
  let token := environ "GITHUB_TOKEN" in
  if negb (truthy_opt token) then
    ret (Json (code_message 401 "GitHub access token is not set") 401)
  else
    (* [request.json] is first evaluated here, after the token test *)
    match json_body req with
    | Unsupported => ret (Abort 415)
    | Malformed => ret (Abort 400)
    | Parsed body =>
    repo_full_name <- lift (dict_get body "repo_full_name" VNone) ;;
    pr_number <- lift (dict_get body "pr_number" VNone) ;;
    comment_body <- lift (dict_get body "comment_body" VNone) ;;
    if negb (truthy repo_full_name) || negb (truthy pr_number)
       || negb (truthy comment_body) then
      ret (Json (code_message 400 "Missing required parameters") 400)
    else
      let headers :=
        [("Authorization", Some ("token " ++ str_opt token));
         ("Accept", Some "application/vnd.github.v3+json")] in
      let data := VDict [("body", comment_body)] in
      response <- requests_post (comment_url repo_full_name pr_number) headers data ;;
      if negb (status_code response =? 201)%Z then
        ret (Json (code_message (status_code response) "Failed to create comment")
               (status_code response))
      else
        ret (Json (VDict [("message", VStr "Comment created successfully")]) 201)
    end.

Definition commits_url (repo_full_name : option string) (branch_name : string)
    : string :=
  "https://api.github.com/repos/" ++ str_opt repo_full_name
    ++ "/commits/" ++ branch_name.

Definition trees_url (repo_full_name : option string) (latest_commit_sha : value)
    : string :=
  "https://api.github.com/repos/" ++ str_opt repo_full_name
    ++ "/git/trees/" ++ str py_repr latest_commit_sha ++ "?recursive=1".

(** [not repo_full_name or '/' not in repo_full_name
     or len(repo_full_name.split('/')) != 2] *)
Definition invalid_repo_full_name (repo_full_name : option string) : bool :=
  match repo_full_name with
  | None => true
  | Some s =>
      negb (truthy (VStr s)) || negb (contains_slash s)
      || negb (Nat.eqb (List.length (split_slash s)) 2)
  end.

Definition get_repo_structure (req : Request) : M Response :=
  let repo_full_name := args_get "repo_full_name" (args req) in
  let branch_name := args_get "branch_name" (args req) in
  let continue (branch_name : string) : M Response :=
    if invalid_repo_full_name repo_full_name then
      ret (Json (code_message 400 "Invalid or missing repo_full_name") 400)
    else
      let headers := token_headers in
      commits_response <- requests_get (commits_url repo_full_name branch_name) headers ;;
      if negb (status_code commits_response =? 200)%Z then
        details <- lift (json commits_response) ;;
        ret (Json (VDict [("code", VInt (status_code commits_response));
                          ("message", VStr "Failed to get latest commit");
                          ("details", details)])
               (status_code commits_response))
      else
        commit <- lift (json commits_response) ;;
        latest_commit_sha <- lift (dict_get commit "sha" VNone) ;;
        if negb (truthy latest_commit_sha) then
          ret (Json (code_message 404 "Latest commit SHA not found") 404)
        else
          let headers := token_headers in
          trees_response <- requests_get (trees_url repo_full_name latest_commit_sha) headers ;;
          if negb (status_code trees_response =? 200)%Z then
            details <- lift (json trees_response) ;;
            ret (Json (VDict [("code", VInt (status_code trees_response));
                              ("message", VStr "Failed to get repository tree");
                              ("details", details)])
                   (status_code trees_response))
          else
            listing <- lift (json trees_response) ;;
            tree <- lift (dict_get listing "tree" (VList [])) ;;
            repo_structure <- lift (Tree.repo_structure_of tree) ;;
            ret (Json repo_structure 200)
  in
  if negb (truthy_opt branch_name) then
    main <- check_branch_exists repo_full_name "main" ;;
    if main then continue "main"
    else
      master <- check_branch_exists repo_full_name "master" ;;
      if master then continue "master"
      else ret (Json (code_message 404 "No main or master branch found") 404)
  else continue (str_opt branch_name).

(** The routing table: every view is registered under [require_api_key]. *)
Definition view (r : Route) : Request -> M Response :=
  match r with
  | pr_content => get_pr_content
  | file_content => get_file_content
  | issue_info => get_issue_info
  | submit_pr_comment_route => submit_pr_comment
  | repo_structure => get_repo_structure
  end.

Definition app (r : Route) (req : Request) : M Response :=
  require_api_key (view r) req.

End Service.

End GitHub.

(** ** gl_interacter.py *)

Module GitLab.
Import Py Http.

Inductive Route : Type :=
| mr_content
| file_content
| issue_info
| submit_mr_comment_route
| repo_structure.

(** The line feed of ['\n'.join(...)]. *)
Definition newline : string := String (ascii_of_N 10) EmptyString.

(** [[change.get('diff', '') for change in diffs]] *)
Fixpoint diffs_of (changes : list value) : Res (list value) :=
  match changes with
  | [] => inr []
  | change :: rest =>
      match dict_get change "diff" (VStr "") with
      | inl e => inl e
      | inr d =>
          match diffs_of rest with
          | inl e => inl e
          | inr ds => inr (d :: ds)
          end
      end
  end.

Section Service.

Variable py_repr : value -> string.
Variable environ : Env.

Definition RHINO_API_KEY : option string := environ "RHINO_API_KEY".

Definition GITLAB_DOMAIN : string :=
  match environ "GITLAB_DOMAIN" with
  | Some d => d
  | None => "gitlab.com"
  end.

Definition require_api_key (view_function : Request -> M Response)
    (req : Request) : M Response :=
  if truthy_opt (x_api_key req) && eq_opt (x_api_key req) RHINO_API_KEY
  then view_function req
  else ret (Abort 401).

Definition project_url (encoded_project_id : string) : string :=
  "https://" ++ GITLAB_DOMAIN ++ "/api/v4/projects/" ++ encoded_project_id.

Definition token_headers : list (string * option string) :=
  [("Private-Token", environ "GITLAB_PRIVATE_TOKEN")].

Definition branch_url (encoded_project_id branch_name : string) : string :=
  project_url encoded_project_id ++ "/repository/branches/" ++ branch_name.

Definition check_branch_exists (project_id : option string)
    (branch_name : string) : M bool :=
  encoded_project_id <- lift (quote_plus (of_opt project_id)) ;;
  let gitlab_api_url := branch_url encoded_project_id branch_name in
  let headers := token_headers in
  response <- requests_get gitlab_api_url headers ;;
  ret (status_code response =? 200)%Z.

Definition merge_request_url (encoded_project_id : string)
    (mr_iid : option string) : string :=
  project_url encoded_project_id ++ "/merge_requests/" ++ str_opt mr_iid.

Definition get_mr_content (req : Request) : M Response :=
  let project_id := args_get "project_id" (args req) in
  let mr_iid := args_get "mr_iid" (args req) in
  if negb (truthy_opt project_id) || negb (truthy_opt mr_iid) then
    ret (Json (code_message 400 "Missing project_id or mr_iid") 400)
  else
    encoded_project_id <- lift (quote_plus (of_opt project_id)) ;;
    let gitlab_api_url := merge_request_url encoded_project_id mr_iid in
    let headers := token_headers in
    response <- requests_get gitlab_api_url headers ;;
    if negb (status_code response =? 200)%Z then
      ret (Json (code_message (status_code response) "Failed to fetch MR info")
             (status_code response))
    else
      mr <- lift (json response) ;;
      encoded_project_id <- lift (quote_plus (of_opt project_id)) ;;
      let diffs_api_url := merge_request_url encoded_project_id mr_iid ++ "/changes" in
      diffs_response <- requests_get diffs_api_url headers ;;
      if negb (status_code diffs_response =? 200)%Z then
        ret (Json (code_message (status_code diffs_response) "Failed to fetch MR diffs")
               (status_code diffs_response))
      else
        diffs_content <- lift (json diffs_response) ;;
        diffs <- lift (dict_get diffs_content "changes" (VList [])) ;;
        changes <- lift (iter diffs) ;;
        pieces <- lift (diffs_of changes) ;;
        diff_text <- lift (join newline pieces) ;;
        title <- lift (dict_get mr "title" VNone) ;;
        description <- lift (dict_get mr "description" VNone) ;;
        source_branch <- lift (dict_get mr "source_branch" VNone) ;;
        target_branch <- lift (dict_get mr "target_branch" VNone) ;;
        ret (Json (VDict [("title", title);
                          ("description", description);
                          ("source_branch", source_branch);
                          ("target_branch", target_branch);
                          ("diffs", VStr diff_text)]) 200).

Definition raw_file_url (encoded_project_id file_path_encoded branch_name : string)
    : string :=
  project_url encoded_project_id ++ "/repository/files/" ++ file_path_encoded
    ++ "/raw?ref=" ++ branch_name.

Definition get_file_content (req : Request) : M Response :=
  let project_id := args_get "project_id" (args req) in
  let file_path := args_get "file_path" (args req) in
  let branch_name := args_get "branch_name" (args req) in
  if negb (truthy_opt project_id) || negb (truthy_opt file_path) then
    ret (Json (code_message 400 "Missing project_id or file_path") 400)
  else
    let continue (branch_name : string) : M Response :=
      file_path_encoded <- lift (quote_plus (of_opt file_path)) ;;
      encoded_project_id <- lift (quote_plus (of_opt project_id)) ;;
      let gitlab_api_url :=
        raw_file_url encoded_project_id file_path_encoded branch_name in
      let headers := token_headers in
      response <- requests_get gitlab_api_url headers ;;
      if negb (status_code response =? 200)%Z then
        ret (Json (code_message (status_code response) "Failed to fetch file content")
               (status_code response))
      else
        let file_content := text response in
        ret (Json (VDict [("content", VStr file_content)]) 200)
    in
    if negb (truthy_opt branch_name) then
      main <- check_branch_exists project_id "main" ;;
      if main then continue "main"
      else
        master <- check_branch_exists project_id "master" ;;
        if master then continue "master"
        else ret (Json (code_message 404 "No main or master branch found") 404)
    else continue (str_opt branch_name).

Definition issue_url (encoded_project_id : string) (issue_iid : option string)
    : string :=
  project_url encoded_project_id ++ "/issues/" ++ str_opt issue_iid.

Definition get_issue_info (req : Request) : M Response :=
  let project_id := args_get "project_id" (args req) in
  let issue_iid := args_get "issue_iid" (args req) in
  if negb (truthy_opt project_id) || negb (truthy_opt issue_iid) then
    ret (Json (code_message 400 "Missing project_id or issue_iid") 400)
  else
    encoded_project_id <- lift (quote_plus (of_opt project_id)) ;;
    let gitlab_api_url := issue_url encoded_project_id issue_iid in
    let headers := token_headers in
    response <- requests_get gitlab_api_url headers ;;
    if negb (status_code response =? 200)%Z then
      ret (Json (code_message (status_code response) "Failed to fetch issue info")
             (status_code response))
    else
      issue <- lift (json response) ;;
      title <- lift (dict_get issue "title" VNone) ;;
      description <- lift (dict_get issue "description" VNone) ;;
      ret (Json (VDict [("title", title); ("description", description)]) 200).

Definition notes_url (encoded_project_id : string) (mr_iid : value) : string :=
  project_url encoded_project_id ++ "/merge_requests/" ++ str py_repr mr_iid
    ++ "/notes".

Definition submit_mr_comment (req : Request) : M Response :=
  let token := environ "GITLAB_PRIVATE_TOKEN" in
  if negb (truthy_opt token) then
    ret (Json (code_message 401 "GitLab access token is not set") 401)
  else
    (* [request.json] is first evaluated here, after the token test *)
    match json_body req with
    | Unsupported => ret (Abort 415)
    | Malformed => ret (Abort 400)
    | Parsed body =>
    project_id <- lift (dict_get body "project_id" VNone) ;;
    mr_iid <- lift (dict_get body "mr_iid" VNone) ;;
    comment_body <- lift (dict_get body "comment_body" VNone) ;;
    if negb (truthy project_id) || negb (truthy mr_iid)
       || negb (truthy comment_body) then
      ret (Json (code_message 400 "Missing required parameters") 400)
    else
      encoded_project_id <- lift (quote_plus project_id) ;;
      let comment_url := notes_url encoded_project_id mr_iid in
      let headers :=
        [("Private-Token", token); ("Content-Type", Some "application/json")] in
      let data := VDict [("body", comment_body)] in
      response <- requests_post comment_url headers data ;;
      if negb (status_code response =? 201)%Z then
        ret (Json (code_message (status_code response) "Failed to create comment")
               (status_code response))
      else
        ret (Json (VDict [("message", VStr "Comment created successfully")]) 201)
    end.

Definition tree_url (encoded_project_id branch_name : string) : string :=
  project_url encoded_project_id ++ "/repository/tree?ref=" ++ branch_name
    ++ "&recursive=true".

Definition get_repo_structure (req : Request) : M Response :=
  let project_id := args_get "project_id" (args req) in
  let branch_name := args_get "branch_name" (args req) in
  if negb (truthy_opt project_id) then
    ret (Json (code_message 400 "Missing project_id") 400)
  else
    let continue (branch_name : string) : M Response :=
      encoded_project_id <- lift (quote_plus (of_opt project_id)) ;;
      let gitlab_api_url := tree_url encoded_project_id branch_name in
      let headers := token_headers in
      response <- requests_get gitlab_api_url headers ;;
      if negb (status_code response =? 200)%Z then
        ret (Json (code_message (status_code response)
                     "Failed to get repository structure")
               (status_code response))
      else
        items <- lift (json response) ;;
        repo_structure <- lift (Tree.repo_structure_of items) ;;
        ret (Json repo_structure 200)
    in
    if negb (truthy_opt branch_name) then
      main <- check_branch_exists project_id "main" ;;
      if main then continue "main"
      else
        master <- check_branch_exists project_id "master" ;;
        if master then continue "master"
        else ret (Json (code_message 404 "No main or master branch found") 404)
    else continue (str_opt branch_name).

(** The routing table: every view is registered under [require_api_key]. *)
Definition view (r : Route) : Request -> M Response :=
  match r with
  | mr_content => get_mr_content
  | file_content => get_file_content
  | issue_info => get_issue_info
  | submit_mr_comment_route => submit_mr_comment
  | repo_structure => get_repo_structure
  end.

Definition app (r : Route) (req : Request) : M Response :=
  require_api_key (view r) req.

End Service.

End GitLab.

(** ** Vocabulary of the properties *)

Module Props.
Import Py Http.

(** A route of either service. *)
Inductive Endpoint : Type :=
| GH (r : GitHub.Route)
| GL (r : GitLab.Route).

Definition serve (py_repr : value -> string) (environ : Env) (e : Endpoint)
    (req : Request) : M Response :=
  match e with
  | GH r => GitHub.app py_repr environ r req
  | GL r => GitLab.app py_repr environ r req
  end.

(** The request carries a non-empty key equal to the configured secret. *)
Definition authorized (environ : Env) (req : Request) : Prop :=
  truthy_opt (x_api_key req) = true /\ x_api_key req = environ "RHINO_API_KEY".

(** The status the client sees; an exception that nothing catches is
    answered with status 500. *)
Definition outward_status (o : Res Response) : Z :=
  match o with
  | inr (Json _ status) => status
  | inr (Abort status) => status
  | inl _ => 500
  end.

(** The branch resolver as the design describes it: an explicit branch is
    returned as it is, otherwise [main] is probed, then [master].  The
    second component lists the probes in the order they are sent. *)
Inductive Resolution : Type :=
| Resolved (branch : string)
| NotFound.

Definition resolve (up : Upstream) (probe : string -> Call)
    (explicit : option string) : Resolution * list Call :=
  if truthy_opt explicit then (Resolved (str_opt explicit), [])
  else if (status_code (up [] (probe "main")) =? 200)%Z then
    (Resolved "main", [probe "main"])
  else if (status_code (up [probe "main"] (probe "master")) =? 200)%Z then
    (Resolved "master", [probe "main"; probe "master"])
  else (NotFound, [probe "main"; probe "master"]).

(** The branch lookups of the two services. *)
Definition gh_probe (environ : Env) (repo_full_name : option string)
    (branch_name : string) : Call :=
  mkCall GET (GitHub.branch_url repo_full_name branch_name)
    (GitHub.token_headers environ) None.

Definition gl_probe (environ : Env) (project_id : option string)
    (branch_name : string) : Call :=
  mkCall GET
    (GitLab.branch_url environ (quote_bytes (str_opt project_id)) branch_name)
    (GitLab.token_headers environ) None.

(** The first call each handler sends once the branch is known. *)
Definition gh_contents_call (environ : Env) (repo_full_name file_path : option string)
    (branch_name : string) : Call :=
  mkCall GET (GitHub.contents_url repo_full_name file_path branch_name)
    (GitHub.token_headers environ) None.

Definition gh_commits_call (environ : Env) (repo_full_name : option string)
    (branch_name : string) : Call :=
  mkCall GET (GitHub.commits_url repo_full_name branch_name)
    (GitHub.token_headers environ) None.

Definition gh_trees_call (py_repr : value -> string) (environ : Env)
    (repo_full_name : option string) (latest_commit_sha : value) : Call :=
  mkCall GET (GitHub.trees_url py_repr repo_full_name latest_commit_sha)
    (GitHub.token_headers environ) None.

Definition gl_raw_file_call (environ : Env) (project_id file_path : option string)
    (branch_name : string) : Call :=
  mkCall GET
    (GitLab.raw_file_url environ (quote_bytes (str_opt project_id))
       (quote_bytes (str_opt file_path)) branch_name)
    (GitLab.token_headers environ) None.

Definition gl_tree_call (environ : Env) (project_id : option string)
    (branch_name : string) : Call :=
  mkCall GET (GitLab.tree_url environ (quote_bytes (str_opt project_id)) branch_name)
    (GitLab.token_headers environ) None.

(** [final] is [log] followed by calls that are not probes and that open
    with the call naming branch [b]. *)
Definition extends (probe first_call : string -> Call) (b : string)
    (log final : list Call) : Prop :=
  exists rest,
    final = (log ++ rest)%list
    /\ (forall c b', In c rest -> c <> probe b')
    /\ (forall c rest', rest = c :: rest' -> c = first_call b).

(** A handler run follows the resolver: the log opens with the resolver's
    probes and holds no other probe, the call sent after them names the
    resolved branch, and without a branch the request ends with the 404. *)
Definition follows_resolver (up : Upstream) (probe first_call : string -> Call)
    (explicit : option string) (result : Res Response * list Call) : Prop :=
  match resolve up probe explicit with
  | (Resolved b, probes) => extends probe first_call b probes (snd result)
  | (NotFound, probes) =>
      result =
      (inr (Json (code_message 404 "No main or master branch found") 404), probes)
  end.

(** The shape the four branch-aware handlers share: probe when no branch
    is given, then go on with the branch. *)
Definition with_resolver (check : string -> M bool) (k : string -> M Response)
    (branch_name : option string) : M Response :=
  if negb (truthy_opt branch_name) then
    main <- check "main" ;;
    if main then k "main"
    else
      master <- check "master" ;;
      if master then k "master"
      else ret (Json (code_message 404 "No main or master branch found") 404)
  else k (str_opt branch_name).

(** What a handler does once it holds a branch: from any log it only adds
    calls as above. *)
Definition tame (up : Upstream) (probe first_call : string -> Call)
    (k : string -> M Response) : Prop :=
  forall b log, extends probe first_call b log (snd (k b up log)).






(** The paths of the entries of type [ty], in the order of the listing. *)
Definition paths_of (ty : string) (items : list value) : list value :=
  flat_map
    (fun item =>
       match getitem item "type", getitem item "path" with
       | inr t, inr p => if eq_str t ty then [p] else []
       | _, _ => []
       end)
    items.

(** An entry as the providers send them: an object with a [type], and with
    a [path] when it is a directory or a file. *)
Definition well_formed_entry (item : value) : Prop :=
  exists t,
    getitem item "type" = inr t
    /\ (eq_str t "tree" || eq_str t "blob" = true ->
        exists p, getitem item "path" = inr p).

(** [{directories: [...], files: [...]}] for a listing. *)
Definition partitioned (items : list value) : value :=
  VDict [("directories", VList (paths_of "tree" items));
         ("files", VList (paths_of "blob" items))].

(** The GitHub service gets as far as the tree call, which is answered 200
    with the entries [items]; [log] is the calls up to and including it. *)
Definition gh_tree_listing (py_repr : value -> string) (environ : Env)
    (up : Upstream) (req : Request) (items : list value) (log : list Call)
    : Prop :=
  let repo := args_get "repo_full_name" (args req) in
  exists b probes commit sha listing,
    GitHub.invalid_repo_full_name repo = false
    /\ resolve up (gh_probe environ repo) (args_get "branch_name" (args req))
       = (Resolved b, probes)
    /\ status_code (up probes (gh_commits_call environ repo b)) = 200
    /\ parsed (up probes (gh_commits_call environ repo b)) = Some (VDict commit)
    /\ lookup "sha" commit = Some sha
    /\ truthy sha = true
    /\ log = (probes ++ [gh_commits_call environ repo b;
                         gh_trees_call py_repr environ repo sha])%list
    /\ status_code
         (up (probes ++ [gh_commits_call environ repo b])%list
            (gh_trees_call py_repr environ repo sha)) = 200
    /\ parsed
         (up (probes ++ [gh_commits_call environ repo b])%list
            (gh_trees_call py_repr environ repo sha)) = Some (VDict listing)
    /\ lookup "tree" listing = Some (VList items).

(** The same for the GitLab service, whose tree call returns the entries
    themselves. *)
Definition gl_tree_listing (environ : Env) (up : Upstream) (req : Request)
    (items : list value) (log : list Call) : Prop :=
  let project := args_get "project_id" (args req) in
  exists b probes,
    truthy_opt project = true
    /\ resolve up (gl_probe environ project) (args_get "branch_name" (args req))
       = (Resolved b, probes)
    /\ log = (probes ++ [gl_tree_call environ project b])%list
    /\ status_code (up probes (gl_tree_call environ project b)) = 200
    /\ parsed (up probes (gl_tree_call environ project b)) = Some (VList items).

(** The environment variable that holds the provider token. *)
Definition provider_token (e : Endpoint) : string :=
  match e with
  | GH _ => "GITHUB_TOKEN"
  | GL _ => "GITLAB_PRIVATE_TOKEN"
  end.

(** An error body in the shape [{'code': ..., 'message': ...}], possibly
    with further keys. *)
Definition has_code_and_message (body : value) : bool :=
  match body with
  | VDict fields =>
      match lookup "code" fields, lookup "message" fields with
      | Some _, Some _ => true
      | _, _ => false
      end
  | _ => false
  end.

(** A query parameter that is missing or empty. *)
Definition lacks (o : option string) : Prop := truthy_opt o = false.

(** [body.get(k)] for the fields of a JSON object. *)
Definition field (fields : list (string * value)) (k : string) : value :=
  match lookup k fields with
  | Some v => v
  | None => VNone
  end.

(** The parameter [k] of a body: the field of that name when the body is
    a JSON object, and nothing when the body is anything else. *)
Definition body_param (req : Request) (k : string) : value :=
  match json_body req with
  | Parsed (VDict fields) => field fields k
  | _ => VNone
  end.

(** Some required parameter of the endpoint is missing or empty. *)
Definition missing_parameter (e : Endpoint) (req : Request) : Prop :=
  let arg k := args_get k (args req) in
  let body_lacks (id ref : string) :=
    truthy (body_param req id) = false
    \/ truthy (body_param req ref) = false
    \/ truthy (body_param req "comment_body") = false in
  match e with
  | GH GitHub.pr_content => lacks (arg "repo_full_name") \/ lacks (arg "pr_number")
  | GH GitHub.file_content => lacks (arg "repo_full_name") \/ lacks (arg "file_path")
  | GH GitHub.issue_info => lacks (arg "repo_full_name") \/ lacks (arg "issue_number")
  | GH GitHub.submit_pr_comment_route => body_lacks "repo_full_name" "pr_number"
  | GH GitHub.repo_structure => lacks (arg "repo_full_name")
  | GL GitLab.mr_content => lacks (arg "project_id") \/ lacks (arg "mr_iid")
  | GL GitLab.file_content => lacks (arg "project_id") \/ lacks (arg "file_path")
  | GL GitLab.issue_info => lacks (arg "project_id") \/ lacks (arg "issue_iid")
  | GL GitLab.submit_mr_comment_route => body_lacks "project_id" "mr_iid"
  | GL GitLab.repo_structure => lacks (arg "project_id")
  end.

(** The keys of the body an endpoint answers on success. *)
Definition success_keys (e : Endpoint) : list string :=
  match e with
  | GH GitHub.pr_content =>
      ["title"; "body"; "source_branch"; "source_repo"; "code_changes"]
  | GL GitLab.mr_content =>
      ["title"; "description"; "source_branch"; "target_branch"; "diffs"]
  | GH GitHub.file_content | GL GitLab.file_content => ["content"]
  | GH GitHub.issue_info | GL GitLab.issue_info => ["title"; "description"]
  | GH GitHub.submit_pr_comment_route | GL GitLab.submit_mr_comment_route =>
      ["message"]
  | GH GitHub.repo_structure | GL GitLab.repo_structure =>
      ["directories"; "files"]
  end.

Definition success_shape (e : Endpoint) (body : value) : Prop :=
  match body with
  | VDict fields => map fst fields = success_keys e
  | _ => False
  end.

(** The number of ['/'] in a string. *)
Fixpoint count_slash (s : string) : nat :=
  match s with
  | EmptyString => 0%nat
  | String c rest =>
      if Ascii.eqb c "/" then S (count_slash rest) else count_slash rest
  end.

(** The characters [quote_plus] lets through or produces: the unreserved
    ones, ['+'] for a space and the ['%'] of an escape. *)
Definition url_safe (c : ascii) : bool :=
  always_safe c || Ascii.eqb c "+" || Ascii.eqb c "%".

(** An entry of type [ty] with path [p]. *)
Definition entry_of (ty : string) (p : value) (item : value) : Prop :=
  exists t,
    getitem item "type" = inr t /\ eq_str t ty = true
    /\ getitem item "path" = inr p.

(** The most upstream calls one request to an endpoint can cause. *)
Definition budget (e : Endpoint) : nat :=
  match e with
  | GH GitHub.pr_content | GL GitLab.mr_content => 2
  | GH GitHub.file_content | GL GitLab.file_content => 3
  | GH GitHub.issue_info | GL GitLab.issue_info => 1
  | GH GitHub.submit_pr_comment_route | GL GitLab.submit_mr_comment_route => 1
  | GH GitHub.repo_structure => 4
  | GL GitLab.repo_structure => 3
  end%nat.

(** The value a call carries for a header, if it has the header. *)
Fixpoint header (name : string) (headers : list (string * option string))
    : option (option string) :=
  match headers with
  | [] => None
  | (name', v) :: rest => if name' =? name then Some v else header name rest
  end.

Definition method_of (e : Endpoint) : Method :=
  match e with
  | GH GitHub.submit_pr_comment_route | GL GitLab.submit_mr_comment_route => POST
  | _ => GET
  end.

(** Where every URL of the GitLab service starts. *)
Definition gitlab_base (environ : Env) : string :=
  "https://" ++ GitLab.GITLAB_DOMAIN environ ++ "/api/v4/projects/".

(** A call as the endpoint may send it: the method of the endpoint, a URL
    under the provider's API root, and the provider token in its header. *)
Definition scoped (environ : Env) (e : Endpoint) (c : Call) : Prop :=
  c_method c = method_of e
  /\ match e with
     | GH _ =>
         (exists rest, c_url c = "https://api.github.com/repos/" ++ rest)
         /\ header "Authorization" (c_headers c)
            = Some (Some ("token " ++ str_opt (environ "GITHUB_TOKEN")))
     | GL _ =>
         (exists rest, c_url c = gitlab_base environ ++ rest)
         /\ header "Private-Token" (c_headers c)
            = Some (environ "GITLAB_PRIVATE_TOKEN")
     end.

(** A body without [code], or whose [code] is the status it is sent with. *)
Definition code_agrees (body : value) (status : Z) : Prop :=
  match body with
  | VDict fields =>
      match lookup "code" fields with
      | Some c => c = VInt status
      | None => True
      end
  | _ => True
  end.

(** The view function of an endpoint, behind the gate. *)
Definition view_of (py_repr : value -> string) (environ : Env) (e : Endpoint)
    : Request -> M Response :=
  match e with
  | GH r => GitHub.view py_repr environ r
  | GL r => GitLab.view py_repr environ r
  end.

(** The one place where a view function aborts with status [s]: a comment
    handler that holds its token evaluates [request.json] on a body that is
    not JSON. *)
Definition body_refused (environ : Env) (e : Endpoint) (req : Request) (s : Z)
    : Prop :=
  method_of e = POST
  /\ truthy_opt (environ (provider_token e)) = true
  /\ ((json_body req = Unsupported /\ s = 415)
      \/ (json_body req = Malformed /\ s = 400)).

(** What every run of a view function keeps: the call budget, the scope
    of its calls, a [code] equal to the status, no [abort] other than the
    one of [request.json], and no JSON answer other than a 400 or a 401
    before the first call. *)
Definition view_facts (environ : Env) (e : Endpoint) (req : Request)
    (result : Res Response * list Call) : Prop :=
  (List.length (snd result) <= budget e)%nat
  /\ Forall (scoped environ e) (snd result)
  /\ match fst result with
     | inr (Json body status) =>
         code_agrees body status
         /\ (snd result = [] -> status = 400 \/ status = 401)
     | inr (Abort s) => body_refused environ e req s
     | inl _ => True
     end.

(** [d.get(k, default)] for the fields of a JSON object. *)
Definition field_or (fields : list (string * value)) (k : string)
    (default : value) : value :=
  match lookup k fields with
  | Some v => v
  | None => default
  end.

Definition is_dict (v : value) : bool :=
  match v with
  | VDict _ => true
  | _ => false
  end.

(** The two calls of the GitHub [get_pr_content]: the same URL, the second
    one asking for the diff. *)
Definition gh_pull_call (environ : Env) (repo_full_name pr_number : option string)
    : Call :=
  mkCall GET (GitHub.pull_url repo_full_name pr_number)
    (GitHub.token_headers environ) None.

Definition gh_diff_call (environ : Env) (repo_full_name pr_number : option string)
    : Call :=
  mkCall GET (GitHub.pull_url repo_full_name pr_number)
    [("Authorization", Some ("token " ++ str_opt (environ "GITHUB_TOKEN")));
     ("Accept", Some "application/vnd.github.v3.diff")] None.

(** The calls of the GitLab [get_mr_content]: the merge request, then its
    changes. *)
Definition gl_merge_request_call (environ : Env) (project_id mr_iid : option string)
    : Call :=
  mkCall GET
    (GitLab.merge_request_url environ (quote_bytes (str_opt project_id)) mr_iid)
    (GitLab.token_headers environ) None.

Definition gl_changes_call (environ : Env) (project_id mr_iid : option string)
    : Call :=
  mkCall GET
    (GitLab.merge_request_url environ (quote_bytes (str_opt project_id)) mr_iid
     ++ "/changes")
    (GitLab.token_headers environ) None.


(** The single call of [get_issue_info] in each service. *)
Definition gh_issue_call (environ : Env) (repo_full_name issue_number : option string)
    : Call :=
  mkCall GET (GitHub.issue_url repo_full_name issue_number)
    (GitHub.token_headers environ) None.

Definition gl_issue_call (environ : Env) (project_id issue_iid : option string)
    : Call :=
  mkCall GET
    (GitLab.issue_url environ (quote_bytes (str_opt project_id)) issue_iid)
    (GitLab.token_headers environ) None.

Definition is_str (v : value) : bool :=
  match v with
  | VStr _ => true
  | _ => false
  end.





(** A comment request that gets as far as [request.json.get] with a JSON
    body that is not an object. *)
Definition body_is_no_object (environ : Env) (e : Endpoint) (req : Request)
    : Prop :=
  method_of e = POST
  /\ truthy_opt (environ (provider_token e)) = true
  /\ exists v, json_body req = Parsed v /\ is_dict v = false.







End Props.

(** ** Concrete requests and providers *)

Module Scenario.
Import Py Http Props.

Definition no_repr : value -> string := fun _ => "".

Definition env : Env :=
  fun name =>
    if name =? "RHINO_API_KEY" then Some "s3cret"
    else if name =? "GITHUB_TOKEN" then Some "ghp_token"
    else if name =? "GITLAB_PRIVATE_TOKEN" then Some "glpat_token"
    else None.

(** Only the shared secret is configured. *)
Definition env_without_token : Env :=
  fun name => if name =? "RHINO_API_KEY" then Some "s3cret" else None.

(** The shared secret is configured as the empty string. *)
Definition env_empty_secret : Env :=
  fun name => if name =? "RHINO_API_KEY" then Some "" else None.

(** A GET carries no body. *)
Definition get (key : option string) (query : list (string * string)) : Request :=
  mkRequest key query Unsupported.

Definition post (key : option string) (body : list (string * value)) : Request :=
  mkRequest key [] (Parsed (VDict body)).

(** [GET /file_content?repo_full_name=acme/widgets&file_path=README.md] *)
Definition readme : Request :=
  get (Some "s3cret")
    [("repo_full_name", "acme/widgets"); ("file_path", "README.md")].

(** [GET /file_content?file_path=README.md], the repository left out. *)
Definition readme_without_repo : Request :=
  get (Some "s3cret") [("file_path", "README.md")].

(** [GET /repo_structure], the repository left out. *)
Definition structure_without_repo : Request :=
  get (Some "s3cret") [].


Definition structure_on_dev : Request :=
  get (Some "s3cret")
    [("repo_full_name", "acme/widgets"); ("project_id", "acme/widgets");
     ("branch_name", "dev")].

Definition issue_seven : Request :=
  get (Some "s3cret") [("project_id", "42"); ("issue_iid", "7")].

Definition comment : Request :=
  post (Some "s3cret")
    [("repo_full_name", VStr "acme/widgets"); ("project_id", VStr "acme/widgets");
     ("pr_number", VInt 7); ("mr_iid", VInt 7); ("comment_body", VStr "LGTM")].

Definition without_key : Request := get None [].

Definition with_empty_key : Request := get (Some "") [].

(** A provider that answers every call with [status] and [body]. *)
Definition always (status : Z) (body : value) : Upstream :=
  fun _ _ => mkUp status "" (Some body).

(** base64 of ["hello"], and of the single byte 0xFF. *)
Definition hello_file : value := VDict [("content", VStr "aGVsbG8=")].
Definition binary_file : value := VDict [("content", VStr "/w==")].

Definition entries : list value :=
  [VDict [("type", VStr "tree"); ("path", VStr "src")];
   VDict [("type", VStr "blob"); ("path", VStr "src/app.py")];
   VDict [("type", VStr "commit"); ("path", VStr "vendor/lib")];
   VDict [("type", VStr "blob"); ("path", VStr "README.md")]].

Definition submodule : value :=
  VDict [("type", VStr "commit"); ("path", VStr "vendor/lib")].

(** A commit and its tree in one object, so that it answers both calls of
    the GitHub handler. *)
Definition commit_with_tree : value :=
  VDict [("sha", VStr "abc123"); ("tree", VList entries)].

(** The POST that the GitHub service sends for [comment]. *)
Definition comment_post : Call :=
  mkCall POST "https://api.github.com/repos/acme/widgets/issues/7/comments"
    [("Authorization", Some "token ghp_token");
     ("Accept", Some "application/vnd.github.v3+json")]
    (Some (VDict [("body", VStr "LGTM")])).

End Scenario.

(** ** More requests and providers *)

Module Cases.
Import Py Http Props.

(** A provider that gives its answers in turn: the n-th call of a request
    gets the n-th answer, and [last] once the list is used up. *)
Definition in_turn (answers : list UpResponse) (last : UpResponse) : Upstream :=
  fun log _ => nth (List.length log) answers last.

Definition answer (status : Z) (body : value) : UpResponse :=
  mkUp status "" (Some body).

(** An answer whose body is not JSON. *)
Definition page (status : Z) (body : string) : UpResponse :=
  mkUp status body None.

Definition pull_seven : Request :=
  Scenario.get (Some "s3cret")
    [("repo_full_name", "acme/widgets"); ("pr_number", "7")].

Definition pull_request : value :=
  VDict [("title", VStr "Fix crash");
         ("body", VNone);
         ("head", VDict [("ref", VStr "fix-crash");
                         ("repo", VDict [("full_name", VStr "fork/widgets")])])].

(** The pull request of a fork that has been deleted. *)
Definition pull_request_of_deleted_fork : value :=
  VDict [("title", VStr "Fix crash");
         ("head", VDict [("ref", VStr "fix-crash"); ("repo", VNone)])].

Definition merge_seven : Request :=
  Scenario.get (Some "s3cret") [("project_id", "acme/widgets"); ("mr_iid", "7")].



Definition gh_issue_three : Request :=
  Scenario.get (Some "s3cret")
    [("repo_full_name", "acme/widgets"); ("issue_number", "3")].

Definition issue : value :=
  VDict [("title", VStr "Crash on start"); ("body", VStr "It crashes.")].

(** [GET /file_content] of either service with every parameter given. *)
Definition file_on_dev : Request :=
  Scenario.get (Some "s3cret")
    [("repo_full_name", "acme/widgets"); ("project_id", "acme/widgets");
     ("file_path", "src"); ("branch_name", "dev")].

(** [GET /file_content] of the GitLab service without the file path. *)
Definition file_without_path : Request :=
  Scenario.get (Some "s3cret") [("project_id", "acme/widgets")].

(** A file of one byte that is not UTF-8. *)
Definition raw_bytes : string := String (ascii_of_N 255) EmptyString.

(** How GitHub lists a directory. *)
Definition directory_listing : value :=
  VList [VDict [("name", VStr "app.py"); ("type", VStr "file")]].

(** A content of one base64 character, which no bytes encode to. *)
Definition truncated_file : value := VDict [("content", VStr "a")].

(** A comment whose project is given by its numeric id. *)
Definition comment_by_id : Request :=
  Scenario.post (Some "s3cret")
    [("project_id", VInt 42); ("mr_iid", VInt 7); ("comment_body", VStr "LGTM")].

Definition comment_fields : list (string * value) :=
  [("repo_full_name", VStr "acme/widgets"); ("project_id", VStr "acme/widgets");
   ("pr_number", VInt 7); ("mr_iid", VInt 7); ("comment_body", VStr "LGTM")].


(** A comment whose body is the empty JSON array, and one whose body is
    not JSON. *)
Definition comment_as_array : Request :=
  mkRequest (Some "s3cret") [] (Parsed (VList [])).

Definition comment_as_form : Request :=
  mkRequest (Some "s3cret") [] Unsupported.


End Cases.

(** ** Properties *)

Import Py Http Props.

Lemma eq_opt_true (a b : option string) : eq_opt a b = true <-> a = b.
Proof.
  destruct a as [x|], b as [y|]; simpl; split; intro H;
    try discriminate; try reflexivity.
  - apply String.eqb_eq in H. now subst.
  - injection H as ->. apply String.eqb_refl.
Qed.

Lemma require_api_key_gh py_repr environ r req :
  GitHub.app py_repr environ r req =
  if truthy_opt (x_api_key req) && eq_opt (x_api_key req) (environ "RHINO_API_KEY")
  then GitHub.view py_repr environ r req else ret (Abort 401).
Proof. reflexivity. Qed.

Lemma require_api_key_gl py_repr environ r req :
  GitLab.app py_repr environ r req =
  if truthy_opt (x_api_key req) && eq_opt (x_api_key req) (environ "RHINO_API_KEY")
  then GitLab.view py_repr environ r req else ret (Abort 401).
Proof. reflexivity. Qed.

Lemma gate_closed environ req :
  x_api_key req = None \/ x_api_key req <> environ "RHINO_API_KEY" ->
  truthy_opt (x_api_key req) && eq_opt (x_api_key req) (environ "RHINO_API_KEY")
  = false.
Proof.
  intros [H | H].
  - rewrite H. reflexivity.
  - destruct (eq_opt (x_api_key req) (environ "RHINO_API_KEY")) eqn:E.
    + apply eq_opt_true in E. contradiction.
    + apply andb_false_r.
Qed.

Lemma gate_open environ req :
  authorized environ req ->
  truthy_opt (x_api_key req) && eq_opt (x_api_key req) (environ "RHINO_API_KEY")
  = true.
Proof.
  intros [Ht Hk]. rewrite Ht. simpl. now apply eq_opt_true.
Qed.

Lemma serve_authorized py_repr environ e req :
  authorized environ req ->
  serve py_repr environ e req =
  match e with
  | GH r => GitHub.view py_repr environ r req
  | GL r => GitLab.view py_repr environ r req
  end.
Proof.
  intro H. destruct e; simpl.
  - rewrite require_api_key_gh, (gate_open _ _ H). reflexivity.
  - rewrite require_api_key_gl, (gate_open _ _ H). reflexivity.
Qed.

(** *** Stepping through a handler *)

Lemma bind_ret {A B} (a : A) (f : A -> M B) up log :
  (x <- ret a ;; f x) up log = f a up log.
Proof. reflexivity. Qed.

Lemma bind_raise {A B} (e : PyExc) (f : A -> M B) up log :
  (x <- raise e ;; f x) up log = (inl e, log).
Proof. reflexivity. Qed.

Lemma bind_lift_inr {A B} (a : A) (f : A -> M B) up log :
  (x <- lift (inr a) ;; f x) up log = f a up log.
Proof. reflexivity. Qed.

Lemma bind_lift_inl {A B} (e : PyExc) (f : A -> M B) up log :
  (x <- lift (inl e) ;; f x) up log = (inl e, log).
Proof. reflexivity. Qed.

Lemma bind_get {B} url headers (f : UpResponse -> M B) up log :
  (x <- requests_get url headers ;; f x) up log
  = f (up log (mkCall GET url headers None)) up
      (log ++ [mkCall GET url headers None])%list.
Proof. reflexivity. Qed.

Lemma bind_post {B} url headers data (f : UpResponse -> M B) up log :
  (x <- requests_post url headers data ;; f x) up log
  = f (up log (mkCall POST url headers (Some data))) up
      (log ++ [mkCall POST url headers (Some data)])%list.
Proof. reflexivity. Qed.

Lemma ret_at {A} (a : A) up log : ret a up log = (inr a, log).
Proof. reflexivity. Qed.

Lemma raise_at {A} (e : PyExc) up log : @raise A e up log = (inl e, log).
Proof. reflexivity. Qed.

Lemma bind_assoc_at {A B C} (m : M A) (f : A -> M B) (g : B -> M C) up log :
  (y <- (x <- m ;; f x) ;; g y) up log = (x <- m ;; y <- f x ;; g y) up log.
Proof.
  unfold bind. destruct (m up log) as [[e|a] log']; reflexivity.
Qed.

Create Rewrite HintDb handler.
#[local] Hint Rewrite @bind_assoc_at @bind_ret @bind_raise @bind_lift_inr
  @bind_lift_inl @bind_get @bind_post @ret_at @raise_at : handler.

(** Split on the next test a handler makes. *)
Ltac next_test :=
  match goal with
  | |- context [match json_body ?r with
                | Parsed _ => _ | Unsupported => _ | Malformed => _ end] =>
      destruct (json_body r) eqn:?
  | |- context [lift ?r] =>
      lazymatch r with
      | inr _ => fail
      | inl _ => fail
      | _ => destruct r eqn:?
      end
  | |- context [if negb (status_code ?r =? ?n)%Z then _ else _] =>
      destruct (status_code r =? n)%Z eqn:?; cbn [negb]
  | |- context [if negb (truthy ?v) then _ else _] =>
      destruct (truthy v) eqn:?; cbn [negb]
  | |- context [if ?c then _ else _] =>
      destruct c eqn:?
  | |- context [match ?v with VNone => _ | _ => _ end] =>
      destruct v eqn:?
  end.

Ltac walk :=
  cbv zeta; cbn [quote_plus of_opt];
  repeat (autorewrite with handler; try next_test);
  autorewrite with handler; cbn [snd fst].

Lemma truthy_opt_some (o : option string) :
  truthy_opt o = true -> exists s, o = Some s /\ s <> "".
Proof.
  destruct o as [s|]; [|discriminate].
  unfold truthy_opt. simpl. intro H. exists s. split; [reflexivity|].
  intros ->. discriminate.
Qed.

Lemma append_cancel_l (p a b : string) : p ++ a = p ++ b -> a = b.
Proof.
  induction p as [|c p IH]; simpl; intro H; [exact H|].
  injection H as H. auto.
Qed.

Lemma decode_content_silent file_path v up log :
  snd (GitHub.decode_content file_path v up log) = log.
Proof.
  unfold GitHub.decode_content.
  destruct (b64decode v) as [e|bytes]; [destruct e; reflexivity|].
  destruct (decode_utf8 bytes) as [e|t]; [destruct e|]; reflexivity.
Qed.

(** *** The resolver inside the handlers *)

Lemma with_resolver_run up probe check k branch_name :
  (forall b log,
      check b up log
      = (inr (status_code (up log (probe b)) =? 200)%Z, (log ++ [probe b])%list)) ->
  run up (with_resolver check k branch_name) =
  match resolve up probe branch_name with
  | (Resolved b, probes) => k b up probes
  | (NotFound, probes) =>
      (inr (Json (code_message 404 "No main or master branch found") 404), probes)
  end.
Proof.
  intros Hcheck.
  assert (Hbind : forall B (f : bool -> M B) b log,
             (x <- check b ;; f x) up log
             = f (status_code (up log (probe b)) =? 200)%Z up
                 (log ++ [probe b])%list).
  { intros. unfold bind. rewrite Hcheck. reflexivity. }
  unfold resolve, with_resolver, run.
  destruct (truthy_opt branch_name); cbn [negb]; [reflexivity|].
  rewrite Hbind. cbn [app].
  destruct (status_code (up [] (probe "main")) =? 200)%Z; [reflexivity|].
  rewrite Hbind. cbn [app].
  destruct (status_code (up [probe "main"] (probe "master")) =? 200)%Z;
    reflexivity.
Qed.

Lemma with_resolver_follows up probe first_call check k branch_name :
  (forall b log,
      check b up log
      = (inr (status_code (up log (probe b)) =? 200)%Z, (log ++ [probe b])%list)) ->
  tame up probe first_call k ->
  follows_resolver up probe first_call branch_name
    (run up (with_resolver check k branch_name)).
Proof.
  intros Hcheck Hk. unfold follows_resolver.
  rewrite (with_resolver_run up probe check k branch_name Hcheck).
  destruct (resolve up probe branch_name) as [[b|] probes]; [apply Hk|reflexivity].
Qed.

Lemma extends_nil probe first_call b log : extends probe first_call b log log.
Proof.
  exists []. rewrite app_nil_r. repeat split.
  - intros c b' [].
  - discriminate.
Qed.

Lemma extends_one probe first_call b log :
  (forall b', first_call b <> probe b') ->
  extends probe first_call b log (log ++ [first_call b])%list.
Proof.
  intro H. exists [first_call b]. repeat split.
  - intros c b' [<- | []]. apply H.
  - intros c rest' E. now injection E as <- _.
Qed.

Lemma extends_two probe first_call b log c2 :
  (forall b', first_call b <> probe b') ->
  (forall b', c2 <> probe b') ->
  extends probe first_call b log ((log ++ [first_call b]) ++ [c2])%list.
Proof.
  intros H1 H2. exists [first_call b; c2]. rewrite <- app_assoc. repeat split.
  - intros c b' [<- | [<- | []]]; auto.
  - intros c rest' E. now injection E as <- _.
Qed.

Lemma gh_check environ repo b up log :
  GitHub.check_branch_exists environ repo b up log
  = (inr (status_code (up log (gh_probe environ repo b)) =? 200)%Z,
     (log ++ [gh_probe environ repo b])%list).
Proof. reflexivity. Qed.

Lemma gl_check environ s b up log :
  GitLab.check_branch_exists environ (Some s) b up log
  = (inr (status_code (up log (gl_probe environ (Some s) b)) =? 200)%Z,
     (log ++ [gl_probe environ (Some s) b])%list).
Proof. reflexivity. Qed.

Lemma gh_contents_not_probe environ repo path b b' :
  gh_contents_call environ repo path b <> gh_probe environ repo b'.
Proof.
  unfold gh_contents_call, gh_probe, GitHub.contents_url, GitHub.branch_url.
  intro H. injection H as H. apply append_cancel_l in H. discriminate H.
Qed.

Lemma gh_commits_not_probe environ repo b b' :
  gh_commits_call environ repo b <> gh_probe environ repo b'.
Proof.
  unfold gh_commits_call, gh_probe, GitHub.commits_url, GitHub.branch_url.
  intro H. injection H as H. apply append_cancel_l in H. discriminate H.
Qed.

Lemma gh_trees_not_probe py_repr environ repo sha b' :
  gh_trees_call py_repr environ repo sha <> gh_probe environ repo b'.
Proof.
  unfold gh_trees_call, gh_probe, GitHub.trees_url, GitHub.branch_url.
  intro H. injection H as H. apply append_cancel_l in H. discriminate H.
Qed.



(** C2.  A request without the [X-Api-Key] header, or with a value that is
    not the configured secret, is answered 401 on every route of both
    services: the decorator does not consult the view function, whatever it
    is, and no upstream call is logged. *)
Theorem unauthorized_request_is_rejected :
  forall py_repr environ up req,
    x_api_key req = None \/ x_api_key req <> environ "RHINO_API_KEY" ->
    (forall view, GitHub.require_api_key environ view req = ret (Abort 401))
    /\ (forall view, GitLab.require_api_key environ view req = ret (Abort 401))
    /\ (forall e, run up (serve py_repr environ e req) = (inr (Abort 401), [])).
Proof.
  intros py_repr environ up req H.
  pose proof (gate_closed environ req H) as Hg.
  repeat split.
  - intro view. unfold GitHub.require_api_key, GitHub.RHINO_API_KEY.
    now rewrite Hg.
  - intro view. unfold GitLab.require_api_key, GitLab.RHINO_API_KEY.
    now rewrite Hg.
  - intros [r | r]; simpl.
    + rewrite require_api_key_gh, Hg. reflexivity.
    + rewrite require_api_key_gl, Hg. reflexivity.
Qed.

(** C9.  When the shared secret is unset or empty, no request passes the
    gate: a key that is missing is refused, and so is a key equal to the
    empty secret, because the decorator first asks for a non-empty header. *)
Theorem unset_secret_rejects_every_request :
  forall py_repr environ up req,
    environ "RHINO_API_KEY" = None \/ environ "RHINO_API_KEY" = Some "" ->
    (forall view, GitHub.require_api_key environ view req = ret (Abort 401))
    /\ (forall view, GitLab.require_api_key environ view req = ret (Abort 401))
    /\ (forall e, run up (serve py_repr environ e req) = (inr (Abort 401), [])).
Proof.
  intros py_repr environ up req H.
  assert (Hg : truthy_opt (x_api_key req)
               && eq_opt (x_api_key req) (environ "RHINO_API_KEY") = false).
  { destruct (x_api_key req) as [k|] eqn:Ek; [|reflexivity].
    destruct H as [-> | ->]; simpl.
    - apply andb_false_r.
    - unfold truthy_opt. simpl. destruct (k =? "") eqn:E; reflexivity. }
  repeat split.
  - intro view. unfold GitHub.require_api_key, GitHub.RHINO_API_KEY.
    now rewrite Hg.
  - intro view. unfold GitLab.require_api_key, GitLab.RHINO_API_KEY.
    now rewrite Hg.
  - intros [r | r]; simpl.
    + rewrite require_api_key_gh, Hg. reflexivity.
    + rewrite require_api_key_gl, Hg. reflexivity.
Qed.

(** *** Each branch-aware handler is the resolver followed by a tame rest *)

Lemma gh_file_content_follows environ up req :
  follows_resolver up
    (gh_probe environ (args_get "repo_full_name" (args req)))
    (gh_contents_call environ (args_get "repo_full_name" (args req))
       (args_get "file_path" (args req)))
    (args_get "branch_name" (args req))
    (run up (GitHub.get_file_content environ req)).
Proof.
  cbv beta delta [GitHub.get_file_content].
  lazymatch goal with
  | |- context [let r := ?R in let f := ?F in let b := ?B in
                let continue := @?K r f b in _] =>
    change (follows_resolver up (gh_probe environ R)
              (gh_contents_call environ R F) B
              (run up (with_resolver (GitHub.check_branch_exists environ R)
                         (K R F B) B)))
  end.
  apply with_resolver_follows; [intros; apply gh_check|].
  intros b log. cbv beta. walk.
  all: rewrite ?decode_content_silent.
  all: try apply extends_nil.
  all: apply (extends_one _ (gh_contents_call environ _ _));
    intro; apply gh_contents_not_probe.
Qed.

Lemma gh_repo_structure_follows py_repr environ up req :
  follows_resolver up
    (gh_probe environ (args_get "repo_full_name" (args req)))
    (gh_commits_call environ (args_get "repo_full_name" (args req)))
    (args_get "branch_name" (args req))
    (run up (GitHub.get_repo_structure py_repr environ req)).
Proof.
  cbv beta delta [GitHub.get_repo_structure].
  lazymatch goal with
  | |- context [let r := ?R in let b := ?B in
                let continue := @?K r b in _] =>
    change (follows_resolver up (gh_probe environ R)
              (gh_commits_call environ R) B
              (run up (with_resolver (GitHub.check_branch_exists environ R)
                         (K R B) B)))
  end.
  apply with_resolver_follows; [intros; apply gh_check|].
  intros b log. cbv beta. walk.
  all: try apply extends_nil.
  all: try (apply (extends_one _ (gh_commits_call environ _));
            intro; apply gh_commits_not_probe).
  all: apply (extends_two _ (gh_commits_call environ _) _ _
                (gh_trees_call py_repr environ _ _));
    intro; [apply gh_commits_not_probe | apply gh_trees_not_probe].
Qed.




(** *** ... and the rest starts with the call that names the branch *)










(** *** File content of the GitHub service *)

Lemma gh_file_content_reaches_decoder py_repr environ up req b probes fields payload :
  authorized environ req ->
  truthy_opt (args_get "repo_full_name" (args req)) = true ->
  truthy_opt (args_get "file_path" (args req)) = true ->
  resolve up (gh_probe environ (args_get "repo_full_name" (args req)))
    (args_get "branch_name" (args req)) = (Resolved b, probes) ->
  status_code
    (up probes
       (gh_contents_call environ (args_get "repo_full_name" (args req))
          (args_get "file_path" (args req)) b)) = 200 ->
  parsed
    (up probes
       (gh_contents_call environ (args_get "repo_full_name" (args req))
          (args_get "file_path" (args req)) b)) = Some (VDict fields) ->
  lookup "content" fields = Some (VStr payload) ->
  run up (GitHub.app py_repr environ GitHub.file_content req) =
  GitHub.decode_content (args_get "file_path" (args req)) (VStr payload) up
    (probes ++ [gh_contents_call environ (args_get "repo_full_name" (args req))
                  (args_get "file_path" (args req)) b])%list.
Proof.
  intros Hauth Hrepo Hpath Hres Hstatus Hparsed Hcontent.
  rewrite require_api_key_gh, (gate_open _ _ Hauth).
  cbv beta iota delta [GitHub.view GitHub.get_file_content].
  lazymatch goal with
  | |- context [let x1 := ?R in let x2 := ?F in let x3 := ?B in
                let continue := @?K x1 x2 x3 in _] =>
    change (run up (with_resolver (GitHub.check_branch_exists environ R)
                      (K R F B) B)
            = GitHub.decode_content F (VStr payload) up
                (probes ++ [gh_contents_call environ R F b])%list)
  end.
  rewrite (with_resolver_run up
             (gh_probe environ (args_get "repo_full_name" (args req)))
             _ _ _ (fun b' log => gh_check environ _ b' up log)), Hres.
  cbv beta zeta. rewrite Hrepo, Hpath. cbn [negb orb].
  unfold gh_contents_call in *.
  rewrite bind_get, Hstatus. cbn [Z.eqb Pos.eqb negb].
  unfold json. rewrite Hparsed, bind_lift_inr.
  cbn [dict_get]. rewrite Hcontent, bind_lift_inr. reflexivity.
Qed.

(** C4.  File content of the GitHub service.  When the contents call is
    answered 200 with a JSON object whose [content] is a base64 payload, the
    handler answers [{content: text}] if the decoded bytes are well-formed
    UTF-8 (the text being those bytes), and otherwise a JSON body with a
    message and status 500; in neither case does an exception leave the
    handler. *)
Theorem gh_file_content_decodes_or_reports :
  forall py_repr environ up req b probes fields payload bytes,
    let repo := args_get "repo_full_name" (args req) in
    let path := args_get "file_path" (args req) in
    let fetch := gh_contents_call environ repo path b in
    authorized environ req ->
    truthy_opt repo = true ->
    truthy_opt path = true ->
    resolve up (gh_probe environ repo) (args_get "branch_name" (args req))
    = (Resolved b, probes) ->
    status_code (up probes fetch) = 200 ->
    parsed (up probes fetch) = Some (VDict fields) ->
    lookup "content" fields = Some (VStr payload) ->
    b64decode (VStr payload) = inr bytes ->
    (utf8_valid bytes = true ->
     run up (GitHub.app py_repr environ GitHub.file_content req)
     = (inr (Json (VDict [("content", VStr bytes)]) 200),
        (probes ++ [fetch])%list))
    /\ (utf8_valid bytes = false ->
        run up (GitHub.app py_repr environ GitHub.file_content req)
        = (inr (Json (VDict [("error",
                  VStr ("无法显示 " ++ str_opt path
                        ++ " 的内容，这可能是一个二进制文件"))]) 500),
           (probes ++ [fetch])%list)).
Proof.
  intros py_repr environ up req b probes fields payload bytes repo path fetch
    Hauth Hrepo Hpath Hres Hstatus Hparsed Hcontent Hb64.
  rewrite (gh_file_content_reaches_decoder py_repr environ up req b probes
             fields payload Hauth Hrepo Hpath Hres Hstatus Hparsed Hcontent).
  unfold GitHub.decode_content, decode_utf8. rewrite Hb64.
  split; intros ->; reflexivity.
Qed.

(** *** Comment submission *)



(** *** Repository structure *)

Lemma tree_is_not_blob t : eq_str t "tree" = true -> eq_str t "blob" = false.
Proof.
  destruct t; simpl; try discriminate.
  intro H. apply String.eqb_eq in H. now subst.
Qed.

Lemma partition_loop_spec items :
  Forall well_formed_entry items ->
  forall directories files,
    Tree.partition_loop items directories files
    = inr ((directories ++ paths_of "tree" items)%list,
           (files ++ paths_of "blob" items)%list).
Proof.
  induction 1 as [|item items (t & Ht & Hp) _ IH]; intros directories files.
  - simpl. now rewrite !app_nil_r.
  - cbn [Tree.partition_loop paths_of flat_map]. fold (paths_of "tree" items).
    fold (paths_of "blob" items). rewrite Ht.
    destruct (eq_str t "tree") eqn:Et.
    + destruct Hp as (p & ->); [reflexivity|].
      rewrite (tree_is_not_blob t Et), IH. cbn [app].
      now rewrite <- app_assoc.
    + destruct (eq_str t "blob") eqn:Eb.
      * destruct Hp as (p & ->); [reflexivity|].
        rewrite IH. cbn [app]. now rewrite <- app_assoc.
      * rewrite IH. destruct (getitem item "path"); reflexivity.
Qed.

Lemma repo_structure_of_spec items :
  Forall well_formed_entry items ->
  Tree.repo_structure_of (VList items) = inr (partitioned items).
Proof.
  intro H. unfold Tree.repo_structure_of. cbn [iter].
  rewrite (partition_loop_spec items H). reflexivity.
Qed.

Lemma gh_repo_structure_lists py_repr environ up req items log :
  authorized environ req ->
  Forall well_formed_entry items ->
  gh_tree_listing py_repr environ up req items log ->
  run up (GitHub.app py_repr environ GitHub.repo_structure req)
  = (inr (Json (partitioned items) 200), log).
Proof.
  intros Hauth Hwf
    (b & probes & commit & sha & listing & Hrepo & Hres & Hs1 & Hp1 & Hsha
       & Htruthy & -> & Hs2 & Hp2 & Htree).
  rewrite require_api_key_gh, (gate_open _ _ Hauth).
  cbv beta iota delta [GitHub.view GitHub.get_repo_structure].
  lazymatch goal with
  | |- context [let x1 := ?R in let x2 := ?B in
                let continue := @?K x1 x2 in _] =>
    change (run up (with_resolver (GitHub.check_branch_exists environ R)
                      (K R B) B)
            = (inr (Json (partitioned items) 200),
               (probes ++ [gh_commits_call environ R b;
                           gh_trees_call py_repr environ R sha])%list))
  end.
  rewrite (with_resolver_run up
             (gh_probe environ (args_get "repo_full_name" (args req)))
             _ _ _ (fun b' log => gh_check environ _ b' up log)), Hres.
  cbv beta zeta. rewrite Hrepo.
  unfold gh_commits_call, gh_trees_call in *.
  rewrite bind_get, Hs1. cbn [Z.eqb Pos.eqb negb].
  unfold json. rewrite Hp1, bind_lift_inr.
  cbn [dict_get]. rewrite Hsha, bind_lift_inr, Htruthy. cbn [negb].
  rewrite bind_get, Hs2. cbn [Z.eqb Pos.eqb negb].
  rewrite Hp2, bind_lift_inr. cbn [dict_get]. rewrite Htree, bind_lift_inr.
  rewrite (repo_structure_of_spec items Hwf), bind_lift_inr, ret_at.
  now rewrite <- app_assoc.
Qed.

Lemma gl_repo_structure_lists py_repr environ up req items log :
  authorized environ req ->
  Forall well_formed_entry items ->
  gl_tree_listing environ up req items log ->
  run up (GitLab.app py_repr environ GitLab.repo_structure req)
  = (inr (Json (partitioned items) 200), log).
Proof.
  intros Hauth Hwf (b & probes & Hp & Hres & -> & Hs & Hitems).
  destruct (truthy_opt_some _ Hp) as (p & Ep & _).
  rewrite require_api_key_gl, (gate_open _ _ Hauth).
  cbv beta iota delta [GitLab.view GitLab.get_repo_structure].
  rewrite Ep in *.
  lazymatch goal with
  | |- context [let x1 := ?P in let x2 := ?B in
                if _ then ?E else let continue := @?K x1 x2 in _] =>
    change (run up (if negb (truthy_opt P) then E
                    else with_resolver (GitLab.check_branch_exists environ P)
                           (K P B) B)
            = (inr (Json (partitioned items) 200),
               (probes ++ [gl_tree_call environ P b])%list))
  end.
  rewrite Hp. cbn [negb].
  rewrite (with_resolver_run up (gl_probe environ (Some p))
             _ _ _ (fun b' log => gl_check environ p b' up log)), Hres.
  cbv beta zeta. cbn [quote_plus of_opt]. rewrite bind_lift_inr.
  unfold gl_tree_call in *. cbn [str_opt] in *.
  rewrite bind_get, Hs. cbn [Z.eqb Pos.eqb negb].
  unfold json. rewrite Hitems, bind_lift_inr.
  rewrite (repo_structure_of_spec items Hwf), bind_lift_inr, ret_at.
  reflexivity.
Qed.

(** C7.  Repository structure in both services.  When the tree call is
    answered 200 with a list of entries, the handler answers
    [{directories, files}] where [directories] is the paths of the entries
    of type [tree] and [files] the paths of the entries of type [blob], each
    in the order of the upstream list. *)
Theorem repo_structure_partitions_entries :
  forall py_repr environ up req items log,
    authorized environ req ->
    Forall well_formed_entry items ->
    (gh_tree_listing py_repr environ up req items log ->
     run up (GitHub.app py_repr environ GitHub.repo_structure req)
     = (inr (Json (VDict [("directories", VList (paths_of "tree" items));
                          ("files", VList (paths_of "blob" items))]) 200),
        log))
    /\ (gl_tree_listing environ up req items log ->
        run up (GitLab.app py_repr environ GitLab.repo_structure req)
        = (inr (Json (VDict [("directories", VList (paths_of "tree" items));
                             ("files", VList (paths_of "blob" items))]) 200),
           log)).
Proof.
  intros py_repr environ up req items log Hauth Hwf. split; intro H.
  - now apply gh_repo_structure_lists.
  - now apply gl_repo_structure_lists.
Qed.

Lemma paths_of_skip ty pre item post t :
  getitem item "type" = inr t ->
  eq_str t ty = false ->
  paths_of ty (pre ++ item :: post) = paths_of ty (pre ++ post).
Proof.
  intros Ht Hty. unfold paths_of. rewrite !flat_map_app. cbn [flat_map].
  rewrite Ht, Hty. now destruct (getitem item "path").
Qed.

Lemma partition_loop_skip pre item post t :
  getitem item "type" = inr t ->
  eq_str t "tree" = false ->
  eq_str t "blob" = false ->
  forall directories files,
    Tree.partition_loop (pre ++ item :: post) directories files
    = Tree.partition_loop (pre ++ post) directories files.
Proof.
  intros Ht Htree Hblob.
  induction pre as [|x pre IH]; intros directories files.
  - cbn [app Tree.partition_loop]. now rewrite Ht, Htree, Hblob.
  - cbn [app Tree.partition_loop].
    destruct (getitem x "type") as [e|tx]; [reflexivity|].
    destruct (eq_str tx "tree"); [|destruct (eq_str tx "blob")];
      try (destruct (getitem x "path"); [reflexivity|]); apply IH.
Qed.

Lemma well_formed_with_other pre item post t :
  getitem item "type" = inr t ->
  eq_str t "tree" = false ->
  eq_str t "blob" = false ->
  Forall well_formed_entry (pre ++ post) ->
  Forall well_formed_entry (pre ++ item :: post).
Proof.
  intros Ht Htree Hblob H. apply Forall_app in H as [Hpre Hpost].
  apply Forall_app. split; [exact Hpre|]. constructor; [|exact Hpost].
  exists t. split; [exact Ht|]. rewrite Htree, Hblob. discriminate.
Qed.

Lemma partitioned_skip pre item post t :
  getitem item "type" = inr t ->
  eq_str t "tree" = false ->
  eq_str t "blob" = false ->
  partitioned (pre ++ item :: post) = partitioned (pre ++ post).
Proof.
  intros Ht Htree Hblob. unfold partitioned.
  now rewrite (paths_of_skip "tree" pre item post t Ht Htree),
    (paths_of_skip "blob" pre item post t Ht Hblob).
Qed.

(** C10.  An entry whose type is neither [tree] nor [blob] is passed over:
    the loop gives the same two lists with the entry as without it, and
    both handlers answer with the partition of the other entries, so the
    entry's path is in neither list on its account. *)
Theorem other_entry_types_are_omitted :
  forall py_repr environ up req pre item post t log,
    getitem item "type" = inr t ->
    eq_str t "tree" = false ->
    eq_str t "blob" = false ->
    (forall directories files,
        Tree.partition_loop (pre ++ item :: post) directories files
        = Tree.partition_loop (pre ++ post) directories files)
    /\ (authorized environ req ->
        Forall well_formed_entry (pre ++ post) ->
        gh_tree_listing py_repr environ up req (pre ++ item :: post) log ->
        run up (GitHub.app py_repr environ GitHub.repo_structure req)
        = (inr (Json (partitioned (pre ++ post)) 200), log))
    /\ (authorized environ req ->
        Forall well_formed_entry (pre ++ post) ->
        gl_tree_listing environ up req (pre ++ item :: post) log ->
        run up (GitLab.app py_repr environ GitLab.repo_structure req)
        = (inr (Json (partitioned (pre ++ post)) 200), log)).
Proof.
  intros py_repr environ up req pre item post t log Ht Htree Hblob.
  split; [now apply (partition_loop_skip pre item post t)|].
  split; intros Hauth Hwf Hlist;
    rewrite <- (partitioned_skip pre item post t Ht Htree Hblob).
  - apply gh_repo_structure_lists; auto.
    now apply (well_formed_with_other pre item post t).
  - apply gl_repo_structure_lists; auto.
    now apply (well_formed_with_other pre item post t).
Qed.

(** *** The provider token *)

(** C8, as amended.  The comment-submission endpoint of each service
    answers 401 without any upstream call when the provider token is absent
    or empty. *)
Theorem comment_submission_requires_token :
  forall py_repr environ up req e,
    e = GH GitHub.submit_pr_comment_route
    \/ e = GL GitLab.submit_mr_comment_route ->
    environ (provider_token e) = None \/ environ (provider_token e) = Some "" ->
    outward_status (fst (run up (serve py_repr environ e req))) = 401
    /\ snd (run up (serve py_repr environ e req)) = [].
Proof.
  intros py_repr environ up req e He Htoken. unfold run.
  destruct He as [-> | ->]; cbn [serve provider_token] in *.
  - rewrite require_api_key_gh.
    destruct (truthy_opt (x_api_key req) && _); [|split; reflexivity].
    cbv beta iota delta [GitHub.view GitHub.submit_pr_comment].
    destruct Htoken as [-> | ->]; split; reflexivity.
  - rewrite require_api_key_gl.
    destruct (truthy_opt (x_api_key req) && _); [|split; reflexivity].
    cbv beta iota delta [GitLab.view GitLab.submit_mr_comment].
    destruct Htoken as [-> | ->]; split; reflexivity.
Qed.

(** C8, as stated, fails on the read endpoints: without a token the GitLab
    issue lookup still sends its upstream call and relays the answer. *)
Lemma read_endpoint_runs_without_token :
  ~ (forall py_repr environ up req e,
        environ (provider_token e) = None ->
        outward_status (fst (run up (serve py_repr environ e req))) = 401
        /\ snd (run up (serve py_repr environ e req)) = []).
Proof.
  intro H.
  destruct (H Scenario.no_repr Scenario.env_without_token
              (Scenario.always 200 (VDict [("title", VStr "Crash on start")]))
              Scenario.issue_seven (GL GitLab.issue_info) eq_refl) as [Hs _].
  vm_compute in Hs. discriminate Hs.
Qed.

(** *** Validation and error bodies of the GitHub service *)

(** C1 at the failing request.  The GitHub [file_content] and
    [repo_structure] handlers look for a branch before they validate: with
    the key accepted, no repository and no branch in the query, the log of
    either handler opens with the lookup of [main] in the repository
    ["None"], whatever the provider answers. *)
Theorem gh_missing_repo_is_probed_first :
  forall py_repr up,
    authorized Scenario.env Scenario.readme_without_repo
    /\ authorized Scenario.env Scenario.structure_without_repo
    /\ args_get "repo_full_name" (args Scenario.readme_without_repo) = None
    /\ args_get "repo_full_name" (args Scenario.structure_without_repo) = None
    /\ c_url (gh_probe Scenario.env None "main")
       = "https://api.github.com/repos/None/branches/main"
    /\ (exists rest,
           snd (run up (GitHub.app py_repr Scenario.env GitHub.file_content
                          Scenario.readme_without_repo))
           = gh_probe Scenario.env None "main" :: rest)
    /\ (exists rest,
           snd (run up (GitHub.app py_repr Scenario.env GitHub.repo_structure
                          Scenario.structure_without_repo))
           = gh_probe Scenario.env None "main" :: rest).
Proof.
  intros py_repr up.
  assert (A1 : authorized Scenario.env Scenario.readme_without_repo)
    by (split; reflexivity).
  assert (A2 : authorized Scenario.env Scenario.structure_without_repo)
    by (split; reflexivity).
  repeat (split; [first [assumption | reflexivity]|]).
  split.
  - rewrite require_api_key_gh, (gate_open _ _ A1).
    pose proof (gh_file_content_follows Scenario.env up
                  Scenario.readme_without_repo) as F.
    unfold follows_resolver, resolve in F.
    change (args_get "repo_full_name" (args Scenario.readme_without_repo))
      with (@None string) in F.
    change (truthy_opt (args_get "branch_name" (args Scenario.readme_without_repo)))
      with false in F.
    cbv iota in F. cbn [GitHub.view].
    destruct (status_code (up [] _) =? 200)%Z;
      [|destruct (status_code (up [_] _) =? 200)%Z].
    + destruct F as (rest & -> & _). now exists rest.
    + destruct F as (rest & -> & _). now eexists.
    + rewrite F. now eexists.
  - rewrite require_api_key_gh, (gate_open _ _ A2).
    pose proof (gh_repo_structure_follows py_repr Scenario.env up
                  Scenario.structure_without_repo) as F.
    unfold follows_resolver, resolve in F.
    change (args_get "repo_full_name" (args Scenario.structure_without_repo))
      with (@None string) in F.
    change (truthy_opt (args_get "branch_name" (args Scenario.structure_without_repo)))
      with false in F.
    cbv iota in F. cbn [GitHub.view].
    destruct (status_code (up [] _) =? 200)%Z;
      [|destruct (status_code (up [_] _) =? 200)%Z].
    + destruct F as (rest & -> & _). now exists rest.
    + destruct F as (rest & -> & _). now eexists.
    + rewrite F. now eexists.
Qed.

(** C5 at the failing request.  When the file is not UTF-8 text the GitHub
    [file_content] handler answers status 500 with the body
    [{error: message}], which has neither [code] nor [message]. *)
Theorem gh_binary_file_error_lacks_code_and_message :
  forall py_repr,
    let body :=
      VDict [("error", VStr "无法显示 README.md 的内容，这可能是一个二进制文件")] in
    authorized Scenario.env Scenario.readme
    /\ fst (run (Scenario.always 200 Scenario.binary_file)
              (GitHub.app py_repr Scenario.env GitHub.file_content
                 Scenario.readme))
       = inr (Json body 500)
    /\ has_code_and_message body = false.
Proof.
  intro py_repr. repeat split; reflexivity.
Qed.

(** ** What holds around the two defects *)

Lemma lacks_repo_is_invalid (o : option string) :
  lacks o -> GitHub.invalid_repo_full_name o = true.
Proof.
  destruct o as [s|]; [|reflexivity].
  unfold lacks, truthy_opt. cbn [of_opt GitHub.invalid_repo_full_name].
  now intros ->.
Qed.

Lemma no_object_needs_post environ e req :
  method_of e = GET -> ~ body_is_no_object environ e req.
Proof. intros E (H & _). rewrite E in H. discriminate H. Qed.

Ltac fails_fast :=
  rewrite ?orb_true_r; cbn [negb orb];
  autorewrite with handler; cbn [fst snd outward_status];
  split; [reflexivity|];
  split;
  [ let Hv := fresh "Hv" in
    let Hd := fresh "Hd" in
    intro Hv; exfalso; revert Hv;
    first
      [ apply no_object_needs_post; reflexivity
      | intros (_ & Hv & _); cbn [provider_token] in Hv; congruence
      | intros (_ & _ & ? & Hv & Hd);
        match goal with
        | E : json_body _ = _ |- _ =>
            rewrite E in Hv;
            first [discriminate Hv | injection Hv as <-; discriminate Hd]
        end ]
  | intros _; lia ].

(** X6.  A request with an accepted key and a required parameter missing
    or empty causes no upstream call, the GitHub [file_content] and
    [repo_structure] handlers being held to this only when the request
    names a branch.  The answer is a 4xx status; the one exception is a
    comment request that gets past the token test with a JSON body that
    is not an object (an array, [null], a string, a number), for which
    [request.json.get] raises [AttributeError]. *)
Lemma missing_parameter_fails_fast py_repr environ up e req :
  authorized environ req ->
  missing_parameter e req ->
  (e = GH GitHub.file_content \/ e = GH GitHub.repo_structure ->
   truthy_opt (args_get "branch_name" (args req)) = true) ->
  snd (run up (serve py_repr environ e req)) = []
  /\ (body_is_no_object environ e req ->
      fst (run up (serve py_repr environ e req)) = inl AttributeError)
  /\ (~ body_is_no_object environ e req ->
      400 <= outward_status (fst (run up (serve py_repr environ e req))) < 500).
Proof.
  intros Hauth Hm Hb. rewrite (serve_authorized _ _ _ _ Hauth). unfold run.
  destruct e as [[]|[]]; cbn [missing_parameter GitHub.view GitLab.view] in *;
    unfold lacks in *.
  - cbv beta iota zeta delta [GitHub.get_pr_content].
    destruct Hm as [-> | ->]; fails_fast.
  - cbv beta iota zeta delta [GitHub.get_file_content].
    rewrite (Hb (or_introl eq_refl)). cbn [negb].
    destruct Hm as [-> | ->]; fails_fast.
  - cbv beta iota zeta delta [GitHub.get_issue_info].
    destruct Hm as [-> | ->]; fails_fast.
  - cbv beta iota zeta delta [GitHub.submit_pr_comment].
    unfold body_param in Hm.
    destruct (truthy_opt (environ "GITHUB_TOKEN")) eqn:Ht; cbn [negb];
      [|fails_fast].
    destruct (json_body req) as [v| |] eqn:Ej; [|fails_fast..].
    destruct v; cbn [dict_get]; autorewrite with handler;
      cbn [fst snd outward_status];
      try (split; [reflexivity|];
           split; [reflexivity|];
           intro Hn; elim Hn;
           split; [reflexivity|];
           split; [exact Ht|];
           eexists; split; [exact Ej | reflexivity]).
    unfold field in Hm. destruct Hm as [-> | [-> | ->]]; fails_fast.
  - cbv beta iota zeta delta [GitHub.get_repo_structure].
    rewrite (Hb (or_intror eq_refl)). cbn [negb].
    rewrite (lacks_repo_is_invalid _ Hm). fails_fast.
  - cbv beta iota zeta delta [GitLab.get_mr_content].
    destruct Hm as [-> | ->]; fails_fast.
  - cbv beta iota zeta delta [GitLab.get_file_content].
    destruct Hm as [-> | ->]; fails_fast.
  - cbv beta iota zeta delta [GitLab.get_issue_info].
    destruct Hm as [-> | ->]; fails_fast.
  - cbv beta iota zeta delta [GitLab.submit_mr_comment].
    unfold body_param in Hm.
    destruct (truthy_opt (environ "GITLAB_PRIVATE_TOKEN")) eqn:Ht; cbn [negb];
      [|fails_fast].
    destruct (json_body req) as [v| |] eqn:Ej; [|fails_fast..].
    destruct v; cbn [dict_get]; autorewrite with handler;
      cbn [fst snd outward_status];
      try (split; [reflexivity|];
           split; [reflexivity|];
           intro Hn; elim Hn;
           split; [reflexivity|];
           split; [exact Ht|];
           eexists; split; [exact Ej | reflexivity]).
    unfold field in Hm. destruct Hm as [-> | [-> | ->]]; fails_fast.
  - cbv beta iota zeta delta [GitLab.get_repo_structure].
    rewrite Hm. fails_fast.
Qed.

Lemma repo_structure_of_shape tree body :
  Tree.repo_structure_of tree = inr body ->
  exists directories files,
    body = VDict [("directories", VList directories); ("files", VList files)].
Proof.
  unfold Tree.repo_structure_of.
  destruct (iter tree) as [e|items]; [discriminate|].
  destruct (Tree.partition_loop items [] []) as [e|[directories files]];
    [discriminate|].
  intro H. injection H as <-. now exists directories, files.
Qed.

Lemma decode_content_shape file_path v up log body status log' :
  GitHub.decode_content file_path v up log = (inr (Json body status), log') ->
  success_shape (GH GitHub.file_content) body
  \/ status = 500 /\ exists message, body = VDict [("error", VStr message)].
Proof.
  unfold GitHub.decode_content.
  destruct (b64decode v) as [e|bytes];
    [|destruct (decode_utf8 bytes) as [e|t]]; try destruct e;
    unfold raise, ret; intro H; try discriminate H; injection H as <- <- _.
  - right. split; [reflexivity|]. now eexists.
  - right. split; [reflexivity|]. now eexists.
  - left. reflexivity.
Qed.

(** The leaves of a walk through a handler, for the shape of the body. *)
Ltac body_leaf :=
  let E := fresh "E" in
  intro E;
  first
    [ discriminate E
    | apply decode_content_shape in E;
      destruct E as [E | E];
      [right; left; exact E | right; right; split; [reflexivity | exact E]]
    | injection E as <- <- _;
      first
        [ left; reflexivity
        | right; left; reflexivity
        | match goal with
          | H : Tree.repo_structure_of _ = inr _ |- _ =>
              apply repo_structure_of_shape in H;
              destruct H as (? & ? & ->); right; left; reflexivity
          end ] ].

(** X7.  Apart from the binary-file answer of the GitHub [file_content]
    handler, every JSON body of either service is the success body of its endpoint
    or carries [code] and [message]. *)
Lemma json_bodies_conform py_repr environ up e req body status log :
  run up (serve py_repr environ e req) = (inr (Json body status), log) ->
  has_code_and_message body = true
  \/ success_shape e body
  \/ (e = GH GitHub.file_content /\ status = 500
      /\ exists message, body = VDict [("error", VStr message)]).
Proof.
  unfold run. destruct e as [r|r]; cbn [serve].
  - rewrite require_api_key_gh.
    destruct (truthy_opt (x_api_key req) && _); [|body_leaf].
    destruct r; cbn [GitHub.view].
    + cbv beta iota delta [GitHub.get_pr_content]. walk. all: body_leaf.
    + cbv beta iota delta [GitHub.get_file_content GitHub.check_branch_exists].
      walk. all: body_leaf.
    + cbv beta iota delta [GitHub.get_issue_info]. walk. all: body_leaf.
    + cbv beta iota delta [GitHub.submit_pr_comment]. walk. all: body_leaf.
    + cbv beta iota delta [GitHub.get_repo_structure GitHub.check_branch_exists].
      walk. all: body_leaf.
  - rewrite require_api_key_gl.
    destruct (truthy_opt (x_api_key req) && _); [|body_leaf].
    destruct r; cbn [GitLab.view].
    + cbv beta iota delta [GitLab.get_mr_content]. walk. all: body_leaf.
    + cbv beta iota delta [GitLab.get_file_content GitLab.check_branch_exists].
      walk. all: body_leaf.
    + cbv beta iota delta [GitLab.get_issue_info]. walk. all: body_leaf.
    + cbv beta iota delta [GitLab.submit_mr_comment]. walk. all: body_leaf.
    + cbv beta iota delta [GitLab.get_repo_structure GitLab.check_branch_exists].
      walk. all: body_leaf.
Qed.

(** X17.  When the key is accepted, the token is set and the three
    parameters are present, [submit_pr_comment] sends exactly one call: the
    POST to the comments URL of that repository and number, with the token
    and with the comment as its [body]. *)
Lemma gh_comment_post_is_sent py_repr environ up req fields :
  authorized environ req ->
  truthy_opt (environ "GITHUB_TOKEN") = true ->
  json_body req = Parsed (VDict fields) ->
  truthy (field fields "repo_full_name") = true ->
  truthy (field fields "pr_number") = true ->
  truthy (field fields "comment_body") = true ->
  snd (run up (serve py_repr environ (GH GitHub.submit_pr_comment_route) req))
  = [mkCall POST
       (GitHub.comment_url py_repr (field fields "repo_full_name")
          (field fields "pr_number"))
       [("Authorization", Some ("token " ++ str_opt (environ "GITHUB_TOKEN")));
        ("Accept", Some "application/vnd.github.v3+json")]
       (Some (VDict [("body", field fields "comment_body")]))].
Proof.
  intros Hauth Ht Hj Hr Hp Hc.
  rewrite (serve_authorized _ _ _ _ Hauth). unfold run. cbn [GitHub.view].
  cbv beta iota zeta delta [GitHub.submit_pr_comment].
  rewrite Ht, Hj. cbn [negb dict_get]. autorewrite with handler.
  fold (field fields "repo_full_name") (field fields "pr_number")
    (field fields "comment_body").
  rewrite Hr, Hp, Hc. cbn [negb orb]. autorewrite with handler.
  now destruct (negb _).
Qed.


(** ** The theorems at concrete requests *)

Lemma unauthorized_request_is_rejected_witness :
  x_api_key Scenario.without_key = None
  /\ run (Scenario.always 200 VNone)
       (serve Scenario.no_repr Scenario.env (GH GitHub.pr_content)
          Scenario.without_key)
     = (inr (Abort 401), []).
Proof.
  split; [reflexivity|].
  apply (proj2 (proj2 (unauthorized_request_is_rejected Scenario.no_repr
                         Scenario.env (Scenario.always 200 VNone)
                         Scenario.without_key (or_introl eq_refl)))).
Defined.

Lemma unset_secret_rejects_every_request_witness :
  Scenario.env_empty_secret "RHINO_API_KEY" = Some ""
  /\ x_api_key Scenario.with_empty_key
     = Scenario.env_empty_secret "RHINO_API_KEY"
  /\ run (Scenario.always 200 VNone)
       (serve Scenario.no_repr Scenario.env_empty_secret
          (GL GitLab.issue_info) Scenario.with_empty_key)
     = (inr (Abort 401), []).
Proof.
  split; [reflexivity|]. split; [reflexivity|].
  apply (proj2 (proj2 (unset_secret_rejects_every_request Scenario.no_repr
                         Scenario.env_empty_secret (Scenario.always 200 VNone)
                         Scenario.with_empty_key (or_intror eq_refl)))).
Defined.


Lemma gh_file_content_decodes_or_reports_witness :
  b64decode (VStr "aGVsbG8=") = inr "hello"
  /\ run (Scenario.always 200 Scenario.hello_file)
       (GitHub.app Scenario.no_repr Scenario.env GitHub.file_content
          Scenario.readme)
     = (inr (Json (VDict [("content", VStr "hello")]) 200),
        [gh_probe Scenario.env (Some "acme/widgets") "main";
         gh_contents_call Scenario.env (Some "acme/widgets")
           (Some "README.md") "main"]).
Proof.
  split; [reflexivity|].
  apply (proj1 (gh_file_content_decodes_or_reports Scenario.no_repr Scenario.env
                  (Scenario.always 200 Scenario.hello_file) Scenario.readme
                  "main" [gh_probe Scenario.env (Some "acme/widgets") "main"]
                  [("content", VStr "aGVsbG8=")] "aGVsbG8=" "hello"
                  (conj eq_refl eq_refl) eq_refl eq_refl eq_refl eq_refl
                  eq_refl eq_refl eq_refl)).
  reflexivity.
Defined.


Lemma well_formed_entries : Forall well_formed_entry Scenario.entries.
Proof.
  repeat constructor; eexists; (split; [reflexivity|]); intros _;
    eexists; reflexivity.
Defined.

Lemma repo_structure_partitions_entries_witness :
  run (Scenario.always 200 Scenario.commit_with_tree)
    (GitHub.app Scenario.no_repr Scenario.env GitHub.repo_structure
       Scenario.structure_on_dev)
  = (inr (Json (VDict [("directories", VList [VStr "src"]);
                       ("files", VList [VStr "src/app.py"; VStr "README.md"])])
            200),
     [gh_commits_call Scenario.env (Some "acme/widgets") "dev";
      gh_trees_call Scenario.no_repr Scenario.env (Some "acme/widgets")
        (VStr "abc123")]).
Proof.
  apply (proj1 (repo_structure_partitions_entries Scenario.no_repr Scenario.env
                  (Scenario.always 200 Scenario.commit_with_tree)
                  Scenario.structure_on_dev Scenario.entries _
                  (conj eq_refl eq_refl) well_formed_entries)).
  exists "dev", [], [("sha", VStr "abc123"); ("tree", VList Scenario.entries)],
    (VStr "abc123"), [("sha", VStr "abc123"); ("tree", VList Scenario.entries)].
  repeat split; reflexivity.
Defined.

Lemma well_formed_other_entries :
  Forall well_formed_entry
    ([VDict [("type", VStr "tree"); ("path", VStr "src")];
      VDict [("type", VStr "blob"); ("path", VStr "src/app.py")]]
     ++ [VDict [("type", VStr "blob"); ("path", VStr "README.md")]]).
Proof.
  repeat constructor; eexists; (split; [reflexivity|]); intros _;
    eexists; reflexivity.
Defined.

Lemma other_entry_types_are_omitted_witness :
  getitem Scenario.submodule "type" = inr (VStr "commit")
  /\ run (Scenario.always 200 (VList Scenario.entries))
       (GitLab.app Scenario.no_repr Scenario.env GitLab.repo_structure
          Scenario.structure_on_dev)
     = (inr (Json (VDict [("directories", VList [VStr "src"]);
                          ("files", VList [VStr "src/app.py"; VStr "README.md"])])
               200),
        [gl_tree_call Scenario.env (Some "acme/widgets") "dev"]).
Proof.
  split; [reflexivity|].
  apply (proj2 (proj2
           (other_entry_types_are_omitted Scenario.no_repr Scenario.env
              (Scenario.always 200 (VList Scenario.entries))
              Scenario.structure_on_dev
              [VDict [("type", VStr "tree"); ("path", VStr "src")];
               VDict [("type", VStr "blob"); ("path", VStr "src/app.py")]]
              Scenario.submodule
              [VDict [("type", VStr "blob"); ("path", VStr "README.md")]]
              (VStr "commit") _ eq_refl eq_refl eq_refl))
           (conj eq_refl eq_refl) well_formed_other_entries).
  exists "dev", []. repeat split; reflexivity.
Defined.

Lemma comment_submission_requires_token_witness :
  Scenario.env_without_token "GITLAB_PRIVATE_TOKEN" = None
  /\ run (Scenario.always 201 VNone)
       (serve Scenario.no_repr Scenario.env_without_token
          (GL GitLab.submit_mr_comment_route) Scenario.comment)
     = (inr (Json (code_message 401 "GitLab access token is not set") 401), [])
  /\ outward_status
       (fst (run (Scenario.always 201 VNone)
               (serve Scenario.no_repr Scenario.env_without_token
                  (GL GitLab.submit_mr_comment_route) Scenario.comment)))
     = 401
  /\ snd (run (Scenario.always 201 VNone)
            (serve Scenario.no_repr Scenario.env_without_token
               (GL GitLab.submit_mr_comment_route) Scenario.comment))
     = [].
Proof.
  split; [reflexivity|]. split; [reflexivity|].
  apply (comment_submission_requires_token Scenario.no_repr
           Scenario.env_without_token (Scenario.always 201 VNone)
           Scenario.comment (GL GitLab.submit_mr_comment_route)
           (or_intror eq_refl) (or_introl eq_refl)).
Defined.

(** ** Further properties of the code *)

(** *** Validation of [repo_full_name] *)

Lemma contains_slash_count s :
  contains_slash s = negb (Nat.eqb (count_slash s) 0).
Proof.
  induction s as [|c s IH]; [reflexivity|].
  cbn [contains_slash count_slash]. destruct (Ascii.eqb c "/"); [reflexivity|].
  exact IH.
Qed.

Lemma split_slash_length s :
  List.length (split_slash s) = S (count_slash s).
Proof.
  induction s as [|c s IH]; [reflexivity|].
  cbn [split_slash count_slash]. destruct (Ascii.eqb c "/").
  - cbn [List.length]. now rewrite IH.
  - destruct (split_slash s); [discriminate IH|exact IH].
Qed.

(** X20.  [get_repo_structure] of the GitHub service accepts a
    [repo_full_name] exactly when it holds one ['/']: the test for a slash
    adds nothing to the test on the split, and names with an empty owner or
    an empty repository (["/"], ["acme/"]) pass. *)
Theorem repo_full_name_is_valid_iff_one_slash :
  forall repo_full_name,
    GitHub.invalid_repo_full_name repo_full_name =
    match repo_full_name with
    | None => true
    | Some s => negb (Nat.eqb (count_slash s) 1)
    end.
Proof.
  intros [s|]; [|reflexivity].
  unfold GitHub.invalid_repo_full_name.
  rewrite contains_slash_count, split_slash_length.
  destruct s as [|c s]; [reflexivity|].
  cbn [truthy String.eqb negb orb].
  destruct (count_slash (String c s)) as [|[|n]]; reflexivity.
Qed.

(** *** The partition loop *)

Lemma partition_loop_well_formed items :
  forall directories files result,
    Tree.partition_loop items directories files = inr result ->
    Forall well_formed_entry items.
Proof.
  induction items as [|item items IH]; intros directories files result H;
    [constructor|].
  cbn [Tree.partition_loop] in H.
  destruct (getitem item "type") as [e|t] eqn:Et; [discriminate H|].
  destruct (eq_str t "tree") eqn:Etree.
  - destruct (getitem item "path") as [e|p] eqn:Ep; [discriminate H|].
    constructor; [|now apply IH in H].
    exists t. split; [exact Et|]. intros _. exists p. exact Ep.
  - destruct (eq_str t "blob") eqn:Eblob.
    + destruct (getitem item "path") as [e|p] eqn:Ep; [discriminate H|].
      constructor; [|now apply IH in H].
      exists t. split; [exact Et|]. intros _. exists p. exact Ep.
    + constructor; [|now apply IH in H].
      exists t. split; [exact Et|]. rewrite Etree, Eblob. discriminate.
Qed.

(** X23.  The loop of [get_repo_structure] ends without an exception exactly
    when every entry is an object with a [type] and, if that type is [tree]
    or [blob], a [path]; any other entry makes the handler raise. *)
Theorem partition_succeeds_iff_entries_well_formed :
  forall items,
    (exists directories files,
        Tree.partition_loop items [] [] = inr (directories, files))
    <-> Forall well_formed_entry items.
Proof.
  intro items. split.
  - intros (d & f & H). now apply partition_loop_well_formed in H.
  - intro H. rewrite (partition_loop_spec items H). now eexists _, _.
Qed.

Lemma in_paths_of ty items p :
  In p (paths_of ty items) <-> exists item, In item items /\ entry_of ty p item.
Proof.
  unfold paths_of. rewrite in_flat_map. split.
  - intros (item & Hin & H). exists item. split; [exact Hin|].
    destruct (getitem item "type") as [e|t] eqn:Et; [destruct H|].
    destruct (getitem item "path") as [e|q] eqn:Ep; [destruct H|].
    destruct (eq_str t ty) eqn:E; [|destruct H].
    destruct H as [<- | []]. now exists t.
  - intros (item & Hin & t & Ht & Hty & Hp). exists item.
    split; [exact Hin|]. rewrite Ht, Hp, Hty. now left.
Qed.

Lemma paths_of_lengths items :
  (List.length (paths_of "tree" items) + List.length (paths_of "blob" items)
   <= List.length items)%nat.
Proof.
  unfold paths_of.
  induction items as [|item items IH]; [apply Nat.le_refl|].
  cbn [flat_map]. rewrite !length_app. cbn [List.length].
  destruct (getitem item "type") as [e|t]; [cbn [List.length]; lia|].
  destruct (getitem item "path") as [e|p]; [cbn [List.length]; lia|].
  destruct (eq_str t "tree") eqn:E.
  - rewrite (tree_is_not_blob t E). cbn [List.length]. lia.
  - destruct (eq_str t "blob"); cbn [List.length]; lia.
Qed.

(** X24.  When the loop of [get_repo_structure] ends, it neither invents nor
    loses a path: a value is in [directories] exactly when some entry of
    type [tree] has it as its path, in [files] exactly when some entry of
    type [blob] has, and the two lists together are no longer than the
    listing. *)
Theorem partition_neither_invents_nor_loses :
  forall items directories files,
    Tree.partition_loop items [] [] = inr (directories, files) ->
    (forall p, In p directories
               <-> exists item, In item items /\ entry_of "tree" p item)
    /\ (forall p, In p files
                  <-> exists item, In item items /\ entry_of "blob" p item)
    /\ (List.length directories + List.length files <= List.length items)%nat.
Proof.
  intros items directories files H.
  pose proof (partition_loop_well_formed items _ _ _ H) as Hwf.
  rewrite (partition_loop_spec items Hwf) in H. cbn [app] in H.
  injection H as <- <-.
  split; [intro p; apply in_paths_of|].
  split; [intro p; apply in_paths_of|apply paths_of_lengths].
Qed.

Lemma utf8_chars_nonempty c s : utf8_chars (String c s) <> [].
Proof.
  cbn [utf8_chars]. destruct (utf8_chars s) as [|ch more]; [discriminate|].
  destruct ch as [|c' ch']; [discriminate|].
  destruct (is_continuation c'); discriminate.
Qed.

(** X25.  A tree that is not a list: the loop runs over the keys of an
    object and over the characters of a string, so an empty object or an
    empty string gives two empty lists, a non-empty one raises [TypeError]
    at its first item, and so does a number, a boolean or [null]. *)
Theorem tree_that_is_not_a_list :
  forall tree,
    match tree with
    | VList _ => True
    | VDict [] | VStr EmptyString =>
        Tree.repo_structure_of tree
        = inr (VDict [("directories", VList []); ("files", VList [])])
    | _ => Tree.repo_structure_of tree = inl TypeError
    end.
Proof.
  intros [ | b | n | s | items | fields]; try reflexivity; try exact I.
  - destruct s as [|c s]; [reflexivity|].
    unfold Tree.repo_structure_of. cbn [iter].
    pose proof (utf8_chars_nonempty c s) as Hne.
    destruct (utf8_chars (String c s)) as [|ch more]; [now elim Hne|].
    reflexivity.
  - destruct fields as [|[k v] fields]; reflexivity.
Qed.

(** *** Encoding of identifiers in the GitLab URLs *)

Lemma quoted_byte_is_safe (c : ascii) :
  (if always_safe c then true
   else if Ascii.eqb c " " then true
   else url_safe (hex_digit (N_of_ascii c / 16))
        && url_safe (hex_digit (N_of_ascii c mod 16))) = true.
Proof.
  destruct c as [[] [] [] [] [] [] [] []]; vm_compute; reflexivity.
Qed.

(** X26.  What [quote_plus] returns for a string holds only unreserved
    characters, ['+'] and ['%']: the encoded [project_id] and [file_path]
    of the GitLab service cannot add a ['/'], ['?'], ['#'] or ['&'] to the
    URL they are put in. *)
Theorem quote_plus_output_is_url_safe :
  forall s,
    exists encoded,
      quote_plus (VStr s) = inr encoded
      /\ forallb url_safe (list_ascii_of_string encoded) = true.
Proof.
  intro s. exists (quote_bytes s). split; [reflexivity|].
  induction s as [|c s IH]; [reflexivity|].
  cbn [quote_bytes]. pose proof (quoted_byte_is_safe c) as H.
  destruct (always_safe c) eqn:Es.
  - cbn [list_ascii_of_string forallb]. unfold url_safe at 1. now rewrite Es.
  - destruct (Ascii.eqb c " ").
    + cbn [list_ascii_of_string forallb]. exact IH.
    + cbn [list_ascii_of_string forallb].
      apply andb_true_iff in H as [H1 H2]. now rewrite H1, H2.
Qed.

(** *** What every run of a handler keeps *)

Lemma append_assoc3 (a b c : string) : (a ++ b) ++ c = a ++ b ++ c.
Proof.
  induction a as [|x a IH]; [reflexivity|]. cbn [append]. now rewrite IH.
Qed.

Lemma project_url_in_base environ encoded :
  GitLab.project_url environ encoded = gitlab_base environ ++ encoded.
Proof.
  unfold GitLab.project_url, gitlab_base.
  change ("https://" ++ GitLab.GITLAB_DOMAIN environ ++ "/api/v4/projects/" ++ encoded)
    with ("https://" ++ (GitLab.GITLAB_DOMAIN environ ++ "/api/v4/projects/" ++ encoded)).
  rewrite (append_assoc3 "https://"
             (GitLab.GITLAB_DOMAIN environ ++ "/api/v4/projects/") encoded).
  f_equal. now rewrite append_assoc3.
Qed.

Lemma in_base_app (base u s : string) :
  (exists rest, u = base ++ rest) -> exists rest, u ++ s = base ++ rest.
Proof.
  intros (rest & ->). exists (rest ++ s). apply append_assoc3.
Qed.

Lemma decode_content_cases file_path v up log :
  exists o,
    GitHub.decode_content file_path v up log = (o, log)
    /\ ((exists e, o = inl e)
        \/ (exists t, o = inr (Json (VDict [("content", VStr t)]) 200))
        \/ (exists m, o = inr (Json (VDict [("error", VStr m)]) 500))).
Proof.
  unfold GitHub.decode_content.
  destruct (b64decode v) as [e|bytes];
    [|destruct (decode_utf8 bytes) as [e|t]]; try destruct e;
    eexists; (split; [reflexivity|]); eauto.
Qed.

Ltac gl_url :=
  first [ eexists; apply project_url_in_base | apply in_base_app; gl_url ].

Ltac scoped_call :=
  unfold scoped; cbn [c_method c_url c_headers method_of];
  split; [reflexivity|];
  split;
  [ first
      [ unfold GitHub.branch_url, GitHub.pull_url, GitHub.contents_url,
          GitHub.issue_url, GitHub.comment_url, GitHub.commits_url,
          GitHub.trees_url;
        eexists; reflexivity
      | unfold GitLab.branch_url, GitLab.merge_request_url,
          GitLab.raw_file_url, GitLab.issue_url, GitLab.notes_url,
          GitLab.tree_url;
        gl_url ]
  | reflexivity ].

Ltac outcome_ok :=
  lazymatch goal with
  | |- True => exact I
  | |- body_refused _ _ _ _ =>
      unfold body_refused; cbn [method_of provider_token];
      split; [reflexivity|];
      split;
      [ apply negb_false_iff; assumption
      | first [ left; split; [assumption | reflexivity]
              | right; split; [assumption | reflexivity] ] ]
  | |- _ /\ _ =>
      split;
      [ cbn; first [exact I | reflexivity]
      | let H := fresh "H" in
        intro H;
        first [discriminate H | left; reflexivity | right; reflexivity] ]
  end.

Ltac facts_hold :=
  unfold view_facts; cbn [fst snd app List.length budget];
  split;
  [ lia
  | split;
    [ repeat (apply Forall_cons; [scoped_call|]); apply Forall_nil
    | outcome_ok ] ].

Ltac facts_leaf :=
  try match goal with
      | H : Tree.repo_structure_of _ = inr _ |- _ =>
          apply repo_structure_of_shape in H; destruct H as (? & ? & ->)
      end;
  lazymatch goal with
  | |- context [GitHub.decode_content ?p ?v ?up ?log] =>
      let o := fresh "o" in
      let E := fresh "E" in
      let Ho := fresh "Ho" in
      destruct (decode_content_cases p v up log) as (o & E & Ho);
      rewrite E; clear E;
      destruct Ho as [[? ->] | [[? ->] | [? ->]]]; facts_hold
  | |- _ => facts_hold
  end.

Lemma views_keep_facts py_repr environ up e req :
  view_facts environ e req (view_of py_repr environ e req up []).
Proof.
  destruct e as [[]|[]]; cbn [view_of GitHub.view GitLab.view].
  - cbv beta iota delta [GitHub.get_pr_content]. walk. all: facts_leaf.
  - cbv beta iota delta [GitHub.get_file_content GitHub.check_branch_exists].
    walk. all: facts_leaf.
  - cbv beta iota delta [GitHub.get_issue_info]. walk. all: facts_leaf.
  - cbv beta iota delta [GitHub.submit_pr_comment]. walk. all: facts_leaf.
  - cbv beta iota delta [GitHub.get_repo_structure GitHub.check_branch_exists].
    walk. all: facts_leaf.
  - cbv beta iota delta [GitLab.get_mr_content]. walk. all: facts_leaf.
  - cbv beta iota delta [GitLab.get_file_content GitLab.check_branch_exists].
    walk. all: facts_leaf.
  - cbv beta iota delta [GitLab.get_issue_info]. walk. all: facts_leaf.
  - cbv beta iota delta [GitLab.submit_mr_comment]. walk. all: facts_leaf.
  - cbv beta iota delta [GitLab.get_repo_structure GitLab.check_branch_exists].
    walk. all: facts_leaf.
Qed.

Lemma authorized_iff_gate environ req :
  authorized environ req <->
  truthy_opt (x_api_key req) && eq_opt (x_api_key req) (environ "RHINO_API_KEY")
  = true.
Proof.
  split; [apply gate_open|].
  intro H. apply andb_true_iff in H as [Ht Hk].
  split; [exact Ht|now apply eq_opt_true].
Qed.

Lemma serve_through_gate py_repr environ up e req :
  run up (serve py_repr environ e req) =
  if truthy_opt (x_api_key req) && eq_opt (x_api_key req) (environ "RHINO_API_KEY")
  then view_of py_repr environ e req up []
  else (inr (Abort 401), []).
Proof.
  unfold run. destruct e as [r|r]; cbn [serve view_of].
  - rewrite require_api_key_gh. now destruct (_ && _).
  - rewrite require_api_key_gl. now destruct (_ && _).
Qed.

(** X1.  No request causes more upstream calls than its endpoint needs:
    one for an issue or a comment, two for a pull or merge request, three
    for a file (two branch lookups and the fetch) and for the GitLab tree,
    four for the GitHub tree. *)
Theorem upstream_calls_stay_within_budget :
  forall py_repr environ up e req,
    (List.length (snd (run up (serve py_repr environ e req))) <= budget e)%nat.
Proof.
  intros py_repr environ up e req. rewrite serve_through_gate.
  destruct (_ && _); [|cbn [snd List.length]; lia].
  apply (views_keep_facts py_repr environ up e req).
Qed.

(** X2.  Every upstream call of a request has the method of its endpoint
    (POST for a comment, GET otherwise), a URL under the API root of the
    provider, whatever the parameters hold, and the provider token in its
    header: ["token " ++ GITHUB_TOKEN] (["token None"] when the variable is
    unset) for GitHub, the value of [GITLAB_PRIVATE_TOKEN] for GitLab. *)
Theorem upstream_calls_are_scoped :
  forall py_repr environ up e req c,
    In c (snd (run up (serve py_repr environ e req))) ->
    scoped environ e c.
Proof.
  intros py_repr environ up e req c. rewrite serve_through_gate.
  destruct (_ && _); [|intros []].
  pose proof (views_keep_facts py_repr environ up e req) as (_ & H & _).
  rewrite Forall_forall in H. apply H.
Qed.

(** X3.  Whenever a JSON body has a [code], that code is the HTTP status
    the body is sent with. *)
Theorem body_code_is_the_status :
  forall py_repr environ up e req fields status log c,
    run up (serve py_repr environ e req)
    = (inr (Json (VDict fields) status), log) ->
    lookup "code" fields = Some c ->
    c = VInt status.
Proof.
  intros py_repr environ up e req fields status log c.
  rewrite serve_through_gate.
  destruct (_ && _); [|discriminate].
  pose proof (views_keep_facts py_repr environ up e req) as (_ & _ & H).
  intros E Hc. rewrite E in H. cbn [fst snd code_agrees] in H.
  destruct H as [H _]. now rewrite Hc in H.
Qed.

Lemma body_refused_aborts py_repr environ up e req s :
  body_refused environ e req s ->
  fst (view_of py_repr environ e req up []) = inr (Abort s).
Proof.
  intros (Hm & Ht & Hbody).
  destruct e as [[]|[]]; try discriminate Hm;
    cbn [view_of GitHub.view GitLab.view provider_token] in *.
  - cbv beta iota zeta delta [GitHub.submit_pr_comment]. rewrite Ht.
    destruct Hbody as [[-> ->] | [-> ->]]; reflexivity.
  - cbv beta iota zeta delta [GitLab.submit_mr_comment]. rewrite Ht.
    destruct Hbody as [[-> ->] | [-> ->]]; reflexivity.
Qed.

(** X4.  A request is aborted in two places only.  At the gate, with 401,
    when the key is not accepted.  And in a comment handler that holds its
    provider token, where it first evaluates [request.json]: with 415 when
    the body is not declared as JSON and with 400 when it does not parse.
    The eight read handlers never abort. *)
Theorem aborts_come_from_the_gate_or_the_body :
  forall py_repr environ up e req s,
    fst (run up (serve py_repr environ e req)) = inr (Abort s)
    <-> (s = 401 /\ ~ authorized environ req)
        \/ (authorized environ req /\ body_refused environ e req s).
Proof.
  intros py_repr environ up e req s. rewrite serve_through_gate.
  rewrite authorized_iff_gate.
  destruct (_ && _) eqn:G.
  - pose proof (views_keep_facts py_repr environ up e req) as (_ & _ & H).
    split.
    + intro E. rewrite E in H. right. now split.
    + intros [[_ Hn] | [_ Hr]]; [now elim Hn|].
      now apply body_refused_aborts.
  - cbn [fst]. split.
    + intro E. injection E as <-. left. split; [reflexivity|discriminate].
    + intros [[-> _] | [Ha _]]; [reflexivity|discriminate Ha].
Qed.

(** X5.  A JSON answer given before any upstream call is a refusal: its
    status is 400 (a parameter is missing or invalid) or 401 (the token is
    not set). *)
Theorem answers_without_upstream_are_refusals :
  forall py_repr environ up e req body status,
    run up (serve py_repr environ e req) = (inr (Json body status), []) ->
    status = 400 \/ status = 401.
Proof.
  intros py_repr environ up e req body status.
  rewrite serve_through_gate.
  destruct (_ && _); [|discriminate].
  pose proof (views_keep_facts py_repr environ up e req) as (_ & _ & H).
  intro E. rewrite E in H. cbn [fst snd] in H. now apply H.
Qed.

(** *** Pull request content of the GitHub service *)

(** Pass the gate and open the view function of a route. *)
Ltac enter_view Hauth :=
  rewrite serve_through_gate, (proj1 (authorized_iff_gate _ _) Hauth);
  cbn [view_of GitHub.view GitLab.view].

Ltac status_is H := rewrite H; cbn [Z.eqb Pos.eqb negb].
Ltac status_is_not H := rewrite (proj2 (Z.eqb_neq _ _) H); cbn [negb].

(** X8.  [get_pr_content] stops at the first upstream failure: a 404 on
    the pull request is answered 404 "Pull Request not found" and any other
    status but 200 is passed on, both after one call; a failure of the diff
    call is passed on after two calls, and nothing of the pull request
    already fetched is returned. *)
Theorem gh_pr_content_stops_at_first_failure :
  forall py_repr environ up req,
    let repo := args_get "repo_full_name" (args req) in
    let number := args_get "pr_number" (args req) in
    let pull := gh_pull_call environ repo number in
    let diff := gh_diff_call environ repo number in
    let result := run up (serve py_repr environ (GH GitHub.pr_content) req) in
    authorized environ req ->
    truthy_opt repo = true ->
    truthy_opt number = true ->
    (status_code (up [] pull) = 404 ->
     result = (inr (Json (code_message 404 "Pull Request not found") 404), [pull]))
    /\ (status_code (up [] pull) <> 404 ->
        status_code (up [] pull) <> 200 ->
        result
        = (inr (Json (code_message (status_code (up [] pull))
                        "Unexpected error occurred")
                  (status_code (up [] pull))),
           [pull]))
    /\ (status_code (up [] pull) = 200 ->
        status_code (up [pull] diff) <> 200 ->
        result
        = (inr (Json (code_message (status_code (up [pull] diff))
                        "Failed to get PR diff")
                  (status_code (up [pull] diff))),
           [pull; diff])).
Proof.
  intros py_repr environ up req repo number pull diff result Hauth Hrepo Hnum.
  subst result. enter_view Hauth.
  cbv beta iota zeta delta [GitHub.get_pr_content].
  fold repo number. rewrite Hrepo, Hnum. cbn [negb orb].
  rewrite bind_get. fold (gh_pull_call environ repo number). fold pull.
  cbn [app].
  repeat split.
  - intro H. status_is H. reflexivity.
  - intros H4 H2. status_is_not H4. status_is_not H2. reflexivity.
  - intros H2 Hd. status_is H2. rewrite bind_get.
    fold (gh_diff_call environ repo number). fold diff. cbn [app].
    status_is_not Hd. reflexivity.
Qed.

Lemma gh_pr_content_reaches_reshape py_repr environ up req pr :
  let repo := args_get "repo_full_name" (args req) in
  let number := args_get "pr_number" (args req) in
  let pull := gh_pull_call environ repo number in
  let diff := gh_diff_call environ repo number in
  authorized environ req ->
  truthy_opt repo = true ->
  truthy_opt number = true ->
  status_code (up [] pull) = 200 ->
  status_code (up [pull] diff) = 200 ->
  parsed (up [] pull) = Some (VDict pr) ->
  run up (serve py_repr environ (GH GitHub.pr_content) req) =
  (head <- lift (inr (field_or pr "head" (VDict []))) ;;
   source_branch <- lift (dict_get head "ref" VNone) ;;
   head' <- lift (inr (field_or pr "head" (VDict []))) ;;
   repo' <- lift (dict_get head' "repo" (VDict [])) ;;
   source_repo <- lift (dict_get repo' "full_name" VNone) ;;
   ret (Json (VDict [("title", field pr "title");
                     ("body", field pr "body");
                     ("source_branch", source_branch);
                     ("source_repo", source_repo);
                     ("code_changes", VStr (text (up [pull] diff)))]) 200))
    up [pull; diff].
Proof.
  intros repo number pull diff Hauth Hrepo Hnum H1 H2 Hp.
  enter_view Hauth.
  cbv beta iota zeta delta [GitHub.get_pr_content].
  fold repo number. rewrite Hrepo, Hnum. cbn [negb orb].
  rewrite bind_get. fold (gh_pull_call environ repo number). fold pull.
  cbn [app]. rewrite H1. cbn [Z.eqb Pos.eqb negb].
  rewrite bind_get. fold (gh_diff_call environ repo number). fold diff.
  cbn [app]. rewrite H2. cbn [Z.eqb Pos.eqb negb].
  unfold json. rewrite Hp. rewrite bind_lift_inr. reflexivity.
Qed.

(** X9.  The success body of [get_pr_content]: [title] and [body] of the
    pull request, [source_branch] from [head.ref], [source_repo] from
    [head.repo.full_name] and [code_changes] the text of the diff answer;
    a key that is missing gives [null], also when [head] or [head.repo] is
    missing altogether. *)
Theorem gh_pr_content_reshapes :
  forall py_repr environ up req pr head repository,
    let repo := args_get "repo_full_name" (args req) in
    let number := args_get "pr_number" (args req) in
    let pull := gh_pull_call environ repo number in
    let diff := gh_diff_call environ repo number in
    authorized environ req ->
    truthy_opt repo = true ->
    truthy_opt number = true ->
    status_code (up [] pull) = 200 ->
    status_code (up [pull] diff) = 200 ->
    parsed (up [] pull) = Some (VDict pr) ->
    field_or pr "head" (VDict []) = VDict head ->
    field_or head "repo" (VDict []) = VDict repository ->
    run up (serve py_repr environ (GH GitHub.pr_content) req)
    = (inr (Json (VDict [("title", field pr "title");
                         ("body", field pr "body");
                         ("source_branch", field head "ref");
                         ("source_repo", field repository "full_name");
                         ("code_changes", VStr (text (up [pull] diff)))]) 200),
       [pull; diff]).
Proof.
  intros py_repr environ up req pr head repository repo number pull diff
    Hauth Hrepo Hnum H1 H2 Hp Hhead Hrepository.
  rewrite (gh_pr_content_reaches_reshape py_repr environ up req pr
             Hauth Hrepo Hnum H1 H2 Hp).
  fold repo number pull diff. rewrite Hhead.
  autorewrite with handler. cbn [dict_get]. autorewrite with handler.
  cbn [dict_get]. fold (field_or head "repo" (VDict [])). rewrite Hrepository.
  autorewrite with handler. cbn [dict_get]. autorewrite with handler.
  reflexivity.
Qed.

(** X10.  When [head] is present but is not an object, or [head.repo] is
    (for example [null]), [get_pr_content] raises [AttributeError] after
    both upstream calls instead of answering. *)
Theorem gh_pr_content_raises_on_null_head_or_repo :
  forall py_repr environ up req pr,
    let repo := args_get "repo_full_name" (args req) in
    let number := args_get "pr_number" (args req) in
    let pull := gh_pull_call environ repo number in
    let diff := gh_diff_call environ repo number in
    authorized environ req ->
    truthy_opt repo = true ->
    truthy_opt number = true ->
    status_code (up [] pull) = 200 ->
    status_code (up [pull] diff) = 200 ->
    parsed (up [] pull) = Some (VDict pr) ->
    is_dict (field_or pr "head" (VDict [])) = false
    \/ (exists head,
           field_or pr "head" (VDict []) = VDict head
           /\ is_dict (field_or head "repo" (VDict [])) = false) ->
    run up (serve py_repr environ (GH GitHub.pr_content) req)
    = (inl AttributeError, [pull; diff]).
Proof.
  intros py_repr environ up req pr repo number pull diff
    Hauth Hrepo Hnum H1 H2 Hp Hbad.
  rewrite (gh_pr_content_reaches_reshape py_repr environ up req pr
             Hauth Hrepo Hnum H1 H2 Hp).
  fold repo number pull diff. autorewrite with handler.
  destruct Hbad as [Hh | (head & Hh & Hr)].
  - destruct (field_or pr "head" (VDict [])); try discriminate Hh; reflexivity.
  - rewrite Hh. cbn [dict_get]. autorewrite with handler.
    cbn [dict_get]. fold (field_or head "repo" (VDict [])).
    destruct (field_or head "repo" (VDict [])); try discriminate Hr; reflexivity.
Qed.

(** *** Merge request content of the GitLab service *)




(** *** Issue information *)

(** X13.  [get_issue_info] makes one call.  Any status but 200 is passed
    on with the message "Failed to fetch issue info"; on a 200 the answer is
    [{title, description}], where [description] is the [body] of a GitHub
    issue and the [description] of a GitLab issue, and a missing key gives
    [null]. *)
Theorem issue_info_relays_one_call :
  forall py_repr environ up req,
    authorized environ req ->
    (let repo := args_get "repo_full_name" (args req) in
     let number := args_get "issue_number" (args req) in
     let call := gh_issue_call environ repo number in
     let result := run up (serve py_repr environ (GH GitHub.issue_info) req) in
     truthy_opt repo = true ->
     truthy_opt number = true ->
     (status_code (up [] call) <> 200 ->
      result
      = (inr (Json (code_message (status_code (up [] call))
                      "Failed to fetch issue info")
                (status_code (up [] call))),
         [call]))
     /\ (forall issue,
            status_code (up [] call) = 200 ->
            parsed (up [] call) = Some (VDict issue) ->
            result
            = (inr (Json (VDict [("title", field issue "title");
                                 ("description", field issue "body")]) 200),
               [call])))
    /\ (let project := args_get "project_id" (args req) in
        let iid := args_get "issue_iid" (args req) in
        let call := gl_issue_call environ project iid in
        let result := run up (serve py_repr environ (GL GitLab.issue_info) req) in
        truthy_opt project = true ->
        truthy_opt iid = true ->
        (status_code (up [] call) <> 200 ->
         result
         = (inr (Json (code_message (status_code (up [] call))
                         "Failed to fetch issue info")
                   (status_code (up [] call))),
            [call]))
        /\ (forall issue,
               status_code (up [] call) = 200 ->
               parsed (up [] call) = Some (VDict issue) ->
               result
               = (inr (Json (VDict [("title", field issue "title");
                                    ("description", field issue "description")])
                         200),
                  [call]))).
Proof.
  intros py_repr environ up req Hauth. split.
  - intros repo number call result Hr Hn. subst result. enter_view Hauth.
    cbv beta iota zeta delta [GitHub.get_issue_info].
    fold repo number. rewrite Hr, Hn. cbn [negb orb].
    rewrite bind_get. fold (gh_issue_call environ repo number). fold call.
    cbn [app]. split.
    + intro H. status_is_not H. reflexivity.
    + intros issue H Hp. status_is H. unfold json. rewrite Hp.
      rewrite bind_lift_inr. reflexivity.
  - intros project iid call result Hp Hi. subst result. enter_view Hauth.
    cbv beta iota zeta delta [GitLab.get_issue_info].
    fold project iid. rewrite Hp, Hi. cbn [negb orb].
    destruct (truthy_opt_some _ Hp) as (p & Ep & _).
    unfold call, gl_issue_call in *. rewrite Ep in *.
    cbn [of_opt quote_plus str_opt] in *.
    rewrite bind_lift_inr, bind_get. cbn [app]. split.
    + intro H. status_is_not H. reflexivity.
    + intros issue H Hj. status_is H. unfold json. rewrite Hj.
      rewrite bind_lift_inr. reflexivity.
Qed.

(** *** File content *)

(** Go through the gate and the branch resolution of a handler, given what
    the branch resolves to; the goal is an equation on the run. *)
Ltac enter_gh_file_content environ up Hauth Hres :=
  rewrite (serve_authorized _ _ _ _ Hauth);
  cbv beta iota delta [GitHub.view GitHub.get_file_content];
  lazymatch goal with
  | |- context [let x1 := ?R in let x2 := ?F in let x3 := ?B in
                let continue := @?K x1 x2 x3 in _] =>
      lazymatch goal with
      | |- _ = ?rhs =>
          change (run up (with_resolver (GitHub.check_branch_exists environ R)
                            (K R F B) B) = rhs);
          rewrite (with_resolver_run up (gh_probe environ R) _ _ _
                     (fun b' log => gh_check environ R b' up log)), Hres;
          cbv beta zeta
      end
  end.

Ltac enter_gh_repo_structure environ up Hauth Hres :=
  rewrite (serve_authorized _ _ _ _ Hauth);
  cbv beta iota delta [GitHub.view GitHub.get_repo_structure];
  lazymatch goal with
  | |- context [let x1 := ?R in let x2 := ?B in
                let continue := @?K x1 x2 in _] =>
      lazymatch goal with
      | |- _ = ?rhs =>
          change (run up (with_resolver (GitHub.check_branch_exists environ R)
                            (K R B) B) = rhs);
          rewrite (with_resolver_run up (gh_probe environ R) _ _ _
                     (fun b' log => gh_check environ R b' up log)), Hres;
          cbv beta zeta
      end
  end.

Ltac enter_gl_file_content environ up p Hauth Ep Ef Hp Hf Hres :=
  rewrite (serve_authorized _ _ _ _ Hauth);
  cbv beta iota delta [GitLab.view GitLab.get_file_content];
  rewrite Ep, Ef in *;
  lazymatch goal with
  | |- context [let x1 := ?P in let x2 := ?F in let x3 := ?B in
                if _ then ?E else let continue := @?K x1 x2 x3 in _] =>
      lazymatch goal with
      | |- _ = ?rhs =>
          change (run up (if negb (truthy_opt P) || negb (truthy_opt F) then E
                          else with_resolver
                                 (GitLab.check_branch_exists environ P)
                                 (K P F B) B) = rhs);
          rewrite Hp, Hf; cbn [negb orb];
          rewrite (with_resolver_run up (gl_probe environ (Some p)) _ _ _
                     (fun b' log => gl_check environ p b' up log)), Hres;
          cbv beta zeta
      end
  end.

(** X14.  [get_file_content] of the GitLab service hands the text of the
    upstream answer on as it is, without decoding or checking it; any
    status but 200 is passed on with "Failed to fetch file content". *)
Theorem gl_file_content_passes_text_through :
  forall py_repr environ up req b probes,
    let project := args_get "project_id" (args req) in
    let path := args_get "file_path" (args req) in
    let fetch := gl_raw_file_call environ project path b in
    let result := run up (serve py_repr environ (GL GitLab.file_content) req) in
    authorized environ req ->
    truthy_opt project = true ->
    truthy_opt path = true ->
    resolve up (gl_probe environ project) (args_get "branch_name" (args req))
    = (Resolved b, probes) ->
    (status_code (up probes fetch) = 200 ->
     result
     = (inr (Json (VDict [("content", VStr (text (up probes fetch)))]) 200),
        (probes ++ [fetch])%list))
    /\ (status_code (up probes fetch) <> 200 ->
        result
        = (inr (Json (code_message (status_code (up probes fetch))
                        "Failed to fetch file content")
                  (status_code (up probes fetch))),
           (probes ++ [fetch])%list)).
Proof.
  intros py_repr environ up req b probes project path fetch result
    Hauth Hp Hf Hres.
  destruct (truthy_opt_some _ Hp) as (p & Ep & _).
  destruct (truthy_opt_some _ Hf) as (f & Ef & _).
  unfold result, fetch, gl_raw_file_call, project, path in *.
  split; intro H.
  - enter_gl_file_content environ up p Hauth Ep Ef Hp Hf Hres.
    cbn [of_opt quote_plus str_opt] in *.
    rewrite !bind_lift_inr, bind_get. status_is H. reflexivity.
  - enter_gl_file_content environ up p Hauth Ep Ef Hp Hf Hres.
    cbn [of_opt quote_plus str_opt] in *.
    rewrite !bind_lift_inr, bind_get. status_is_not H. reflexivity.
Qed.

(** X15.  What [get_file_content] of the GitHub service does when the
    fetch gives no content: a status other than 200 is passed on with a
    message that names the branch; an answer that is not JSON, or is JSON
    but not an object (GitHub lists a directory as an array), raises; an
    object without [content], or with [content: null], is answered 500 "No
    content found in the response". *)
Theorem gh_file_content_without_content :
  forall py_repr environ up req b probes,
    let repo := args_get "repo_full_name" (args req) in
    let path := args_get "file_path" (args req) in
    let fetch := gh_contents_call environ repo path b in
    let result := run up (serve py_repr environ (GH GitHub.file_content) req) in
    let log := (probes ++ [fetch])%list in
    authorized environ req ->
    truthy_opt repo = true ->
    truthy_opt path = true ->
    resolve up (gh_probe environ repo) (args_get "branch_name" (args req))
    = (Resolved b, probes) ->
    (status_code (up probes fetch) <> 200 ->
     result
     = (inr (Json (code_message (status_code (up probes fetch))
                     ("Failed to fetch file content from " ++ b ++ " branch"))
               (status_code (up probes fetch))),
        log))
    /\ (status_code (up probes fetch) = 200 ->
        parsed (up probes fetch) = None ->
        result = (inl JSONDecodeError, log))
    /\ (forall v,
           status_code (up probes fetch) = 200 ->
           parsed (up probes fetch) = Some v ->
           is_dict v = false ->
           result = (inl AttributeError, log))
    /\ (forall fields,
           status_code (up probes fetch) = 200 ->
           parsed (up probes fetch) = Some (VDict fields) ->
           field fields "content" = VNone ->
           result
           = (inr (Json (code_message 500 "No content found in the response")
                     500),
              log)).
Proof.
  intros py_repr environ up req b probes repo path fetch result log
    Hauth Hr Hf Hres.
  unfold result, log, fetch, gh_contents_call, repo, path in *.
  repeat split.
  - intro H. enter_gh_file_content environ up Hauth Hres.
    rewrite Hr, Hf. cbn [negb orb]. rewrite bind_get. status_is_not H.
    reflexivity.
  - intros H Hp. enter_gh_file_content environ up Hauth Hres.
    rewrite Hr, Hf. cbn [negb orb]. rewrite bind_get. status_is H.
    unfold json. rewrite Hp. reflexivity.
  - intros v H Hp Hv. enter_gh_file_content environ up Hauth Hres.
    rewrite Hr, Hf. cbn [negb orb]. rewrite bind_get. status_is H.
    unfold json. rewrite Hp, bind_lift_inr.
    destruct v; try discriminate Hv; reflexivity.
  - intros fields H Hp Hc. enter_gh_file_content environ up Hauth Hres.
    rewrite Hr, Hf. cbn [negb orb]. rewrite bind_get. status_is H.
    unfold json. rewrite Hp, bind_lift_inr. cbn [dict_get].
    fold (field fields "content"). rewrite Hc, bind_lift_inr. reflexivity.
Qed.

Lemma a2b_loop_error s :
  forall quad_pos leftchar pads out e,
    a2b_loop s quad_pos leftchar pads out = inl e -> e = BinasciiError.
Proof.
  induction s as [|c s IH]; intros quad_pos leftchar pads out e;
    cbn [a2b_loop].
  - destruct (quad_pos =? 0)%N; [discriminate|]. intro H. now injection H.
  - destruct (Ascii.eqb c "=").
    + destruct ((2 <=? quad_pos)%N && (4 <=? quad_pos + (pads + 1))%N);
        [discriminate|].
      destruct (2 <=? quad_pos)%N; apply IH.
    + destruct (b64_index c); [|apply IH].
      destruct (quad_pos =? 0)%N; [apply IH|].
      destruct (quad_pos =? 1)%N; [apply IH|].
      destruct (quad_pos =? 2)%N; apply IH.
Qed.

Lemma b64decode_error v e :
  b64decode v = inl e -> e <> UnicodeDecodeError.
Proof.
  destruct v; cbn [b64decode]; try (intro H; injection H as <-; discriminate).
  destruct (is_ascii s); [|intro H; injection H as <-; discriminate].
  intro H. apply a2b_loop_error in H. subst e. discriminate.
Qed.

(** X16.  [get_file_content] of the GitHub service catches only
    [UnicodeDecodeError]: a [content] that [b64decode] refuses (a payload
    with wrong padding or an impossible length, a string with a non-ASCII
    character, a value that is not a string) makes the handler raise that
    error instead of answering. *)
Theorem gh_file_content_raises_on_bad_base64 :
  forall py_repr environ up req b probes fields e,
    let repo := args_get "repo_full_name" (args req) in
    let path := args_get "file_path" (args req) in
    let fetch := gh_contents_call environ repo path b in
    authorized environ req ->
    truthy_opt repo = true ->
    truthy_opt path = true ->
    resolve up (gh_probe environ repo) (args_get "branch_name" (args req))
    = (Resolved b, probes) ->
    status_code (up probes fetch) = 200 ->
    parsed (up probes fetch) = Some (VDict fields) ->
    field fields "content" <> VNone ->
    b64decode (field fields "content") = inl e ->
    run up (serve py_repr environ (GH GitHub.file_content) req)
    = (inl e, (probes ++ [fetch])%list).
Proof.
  intros py_repr environ up req b probes fields e repo path fetch
    Hauth Hr Hf Hres H Hp Hc Hb.
  unfold fetch, gh_contents_call, repo, path in *.
  enter_gh_file_content environ up Hauth Hres.
  rewrite Hr, Hf. cbn [negb orb]. rewrite bind_get. status_is H.
  unfold json. rewrite Hp, bind_lift_inr. cbn [dict_get].
  fold (field fields "content"). rewrite bind_lift_inr.
  pose proof (b64decode_error _ _ Hb) as Hne.
  assert (E : forall k,
             match field fields "content" with
             | VNone => k
             | _ => GitHub.decode_content (args_get "file_path" (args req))
                      (field fields "content")
             end
             = GitHub.decode_content (args_get "file_path" (args req))
                 (field fields "content")).
  { intro k. destruct (field fields "content"); try reflexivity. now elim Hc. }
  rewrite E. unfold GitHub.decode_content. rewrite Hb.
  destruct e; try reflexivity. now elim Hne.
Qed.

(** *** The commit step of the GitHub repository structure *)

(** X21.  When the commit answer is a 200 without a usable [sha] (the key
    is missing, [null] or empty), [get_repo_structure] answers 404 "Latest
    commit SHA not found" and does not call for the tree. *)
Theorem gh_repo_structure_without_sha :
  forall py_repr environ up req b probes commit,
    let repo := args_get "repo_full_name" (args req) in
    let commits := gh_commits_call environ repo b in
    authorized environ req ->
    GitHub.invalid_repo_full_name repo = false ->
    resolve up (gh_probe environ repo) (args_get "branch_name" (args req))
    = (Resolved b, probes) ->
    status_code (up probes commits) = 200 ->
    parsed (up probes commits) = Some (VDict commit) ->
    truthy (field commit "sha") = false ->
    run up (serve py_repr environ (GH GitHub.repo_structure) req)
    = (inr (Json (code_message 404 "Latest commit SHA not found") 404),
       (probes ++ [commits])%list).
Proof.
  intros py_repr environ up req b probes commit repo commits
    Hauth Hr Hres H Hp Hsha.
  unfold commits, gh_commits_call, repo in *.
  enter_gh_repo_structure environ up Hauth Hres.
  rewrite Hr, bind_get. status_is H.
  unfold json. rewrite Hp, bind_lift_inr. cbn [dict_get].
  fold (field commit "sha"). rewrite bind_lift_inr, Hsha. reflexivity.
Qed.

(** X22.  The error answer of the commit step carries the upstream body as
    [details], so it needs that body to be JSON: a status other than 200
    with a JSON body is passed on with the body attached, and one with a
    body that is not JSON makes the handler raise instead. *)
Theorem gh_repo_structure_error_needs_json :
  forall py_repr environ up req b probes,
    let repo := args_get "repo_full_name" (args req) in
    let commits := gh_commits_call environ repo b in
    let result := run up (serve py_repr environ (GH GitHub.repo_structure) req) in
    authorized environ req ->
    GitHub.invalid_repo_full_name repo = false ->
    resolve up (gh_probe environ repo) (args_get "branch_name" (args req))
    = (Resolved b, probes) ->
    status_code (up probes commits) <> 200 ->
    (forall details,
        parsed (up probes commits) = Some details ->
        result
        = (inr (Json (VDict [("code", VInt (status_code (up probes commits)));
                             ("message", VStr "Failed to get latest commit");
                             ("details", details)])
                  (status_code (up probes commits))),
           (probes ++ [commits])%list))
    /\ (parsed (up probes commits) = None ->
        result = (inl JSONDecodeError, (probes ++ [commits])%list)).
Proof.
  intros py_repr environ up req b probes repo commits result
    Hauth Hr Hres H.
  unfold result, commits, gh_commits_call, repo in *.
  split.
  - intros details Hp. enter_gh_repo_structure environ up Hauth Hres.
    rewrite Hr, bind_get. status_is_not H.
    unfold json. rewrite Hp, bind_lift_inr. reflexivity.
  - intros Hp. enter_gh_repo_structure environ up Hauth Hres.
    rewrite Hr, bind_get. status_is_not H.
    unfold json. rewrite Hp. reflexivity.
Qed.

(** *** Failures of the GitLab merge request and comment handlers *)

(** X11.  [get_mr_content] stops at the first upstream failure: a status
    other than 200 on the merge request is passed on after one call; a 200
    whose body is not JSON raises before the changes are asked for; a
    failure of the changes call is passed on after two calls. *)
Theorem gl_mr_content_stops_at_first_failure :
  forall py_repr environ up req,
    let project := args_get "project_id" (args req) in
    let iid := args_get "mr_iid" (args req) in
    let first := gl_merge_request_call environ project iid in
    let second := gl_changes_call environ project iid in
    let result := run up (serve py_repr environ (GL GitLab.mr_content) req) in
    authorized environ req ->
    truthy_opt project = true ->
    truthy_opt iid = true ->
    (status_code (up [] first) <> 200 ->
     result
     = (inr (Json (code_message (status_code (up [] first))
                     "Failed to fetch MR info")
               (status_code (up [] first))),
        [first]))
    /\ (status_code (up [] first) = 200 ->
        parsed (up [] first) = None ->
        result = (inl JSONDecodeError, [first]))
    /\ (forall mr,
           status_code (up [] first) = 200 ->
           parsed (up [] first) = Some mr ->
           status_code (up [first] second) <> 200 ->
           result
           = (inr (Json (code_message (status_code (up [first] second))
                           "Failed to fetch MR diffs")
                     (status_code (up [first] second))),
              [first; second])).
Proof.
  intros py_repr environ up req project iid first second result Hauth Hp Hi.
  subst result. enter_view Hauth.
  cbv beta iota zeta delta [GitLab.get_mr_content].
  fold project iid. rewrite Hp, Hi. cbn [negb orb].
  destruct (truthy_opt_some _ Hp) as (p & Ep & _).
  unfold first, second, gl_merge_request_call, gl_changes_call in *.
  rewrite Ep in *. cbn [of_opt quote_plus str_opt] in *.
  rewrite bind_lift_inr, bind_get. cbn [app].
  repeat split.
  - intro H. status_is_not H. reflexivity.
  - intros H Hj. status_is H. unfold json. rewrite Hj. reflexivity.
  - intros mr H Hj H2. status_is H. unfold json at 1. rewrite Hj.
    rewrite !bind_lift_inr, bind_get. cbn [app]. status_is_not H2.
    reflexivity.
Qed.

(** X19.  [submit_mr_comment] needs a [project_id] that is a string: when
    the body gives it as a number (or any other value that is not a
    string), [quote_plus] raises [TypeError] and no comment is posted. *)
Theorem gl_comment_raises_on_project_id_that_is_no_string :
  forall py_repr environ up req fields,
    authorized environ req ->
    truthy_opt (environ "GITLAB_PRIVATE_TOKEN") = true ->
    json_body req = Parsed (VDict fields) ->
    truthy (field fields "project_id") = true ->
    is_str (field fields "project_id") = false ->
    truthy (field fields "mr_iid") = true ->
    truthy (field fields "comment_body") = true ->
    run up (serve py_repr environ (GL GitLab.submit_mr_comment_route) req)
    = (inl TypeError, []).
Proof.
  intros py_repr environ up req fields Hauth Ht Hj Hp Hs Hm Hc.
  enter_view Hauth.
  cbv beta iota zeta delta [GitLab.submit_mr_comment].
  rewrite Ht, Hj. cbn [negb dict_get]. autorewrite with handler.
  fold (field fields "project_id") (field fields "mr_iid")
    (field fields "comment_body").
  rewrite Hp, Hm, Hc. cbn [negb orb].
  destruct (field fields "project_id"); try discriminate Hs; reflexivity.
Qed.

(** ** The further properties at concrete requests *)

Lemma partition_neither_invents_nor_loses_witness :
  Tree.partition_loop Scenario.entries [] []
  = inr ([VStr "src"], [VStr "src/app.py"; VStr "README.md"])
  /\ (In (VStr "vendor/lib") [VStr "src/app.py"; VStr "README.md"]
      <-> exists item,
            In item Scenario.entries /\ entry_of "blob" (VStr "vendor/lib") item).
Proof.
  split; [reflexivity|].
  apply (proj1 (proj2 (partition_neither_invents_nor_loses Scenario.entries
                         [VStr "src"] [VStr "src/app.py"; VStr "README.md"]
                         eq_refl))).
Defined.

Lemma upstream_calls_are_scoped_witness :
  In Scenario.comment_post
    (snd (run (Scenario.always 201 VNone)
            (serve Scenario.no_repr Scenario.env
               (GH GitHub.submit_pr_comment_route) Scenario.comment)))
  /\ scoped Scenario.env (GH GitHub.submit_pr_comment_route)
       Scenario.comment_post.
Proof.
  split; [left; reflexivity|].
  apply (upstream_calls_are_scoped Scenario.no_repr Scenario.env
           (Scenario.always 201 VNone) (GH GitHub.submit_pr_comment_route)
           Scenario.comment Scenario.comment_post).
  left. reflexivity.
Defined.

Lemma body_code_is_the_status_witness :
  run (Scenario.always 503 VNone)
    (serve Scenario.no_repr Scenario.env (GL GitLab.issue_info)
       Scenario.issue_seven)
  = (inr (Json (code_message 503 "Failed to fetch issue info") 503),
     [gl_issue_call Scenario.env (Some "42") (Some "7")])
  /\ VInt 503 = VInt 503.
Proof.
  split; [reflexivity|].
  apply (body_code_is_the_status Scenario.no_repr Scenario.env
           (Scenario.always 503 VNone) (GL GitLab.issue_info)
           Scenario.issue_seven
           [("code", VInt 503); ("message", VStr "Failed to fetch issue info")]
           503 [gl_issue_call Scenario.env (Some "42") (Some "7")] (VInt 503));
    reflexivity.
Defined.

Lemma answers_without_upstream_are_refusals_witness :
  run (Scenario.always 200 VNone)
    (serve Scenario.no_repr Scenario.env (GL GitLab.file_content)
       Cases.file_without_path)
  = (inr (Json (code_message 400 "Missing project_id or file_path") 400), [])
  /\ (400 = 400 \/ 400 = 401).
Proof.
  split; [reflexivity|].
  apply (answers_without_upstream_are_refusals Scenario.no_repr Scenario.env
           (Scenario.always 200 VNone) (GL GitLab.file_content)
           Cases.file_without_path
           (code_message 400 "Missing project_id or file_path") 400).
  reflexivity.
Defined.

Lemma gh_pr_content_stops_at_first_failure_witness :
  run (Scenario.always 404 VNone)
    (serve Scenario.no_repr Scenario.env (GH GitHub.pr_content) Cases.pull_seven)
  = (inr (Json (code_message 404 "Pull Request not found") 404),
     [gh_pull_call Scenario.env (Some "acme/widgets") (Some "7")]).
Proof.
  apply (proj1 (gh_pr_content_stops_at_first_failure Scenario.no_repr
                  Scenario.env (Scenario.always 404 VNone) Cases.pull_seven
                  (conj eq_refl eq_refl) eq_refl eq_refl)).
  reflexivity.
Defined.

Lemma gh_pr_content_reshapes_witness :
  run (Cases.in_turn [Cases.answer 200 Cases.pull_request]
         (Cases.page 200 "diff --git a/a.py b/a.py"))
    (serve Scenario.no_repr Scenario.env (GH GitHub.pr_content) Cases.pull_seven)
  = (inr (Json (VDict [("title", VStr "Fix crash");
                       ("body", VNone);
                       ("source_branch", VStr "fix-crash");
                       ("source_repo", VStr "fork/widgets");
                       ("code_changes", VStr "diff --git a/a.py b/a.py")]) 200),
     [gh_pull_call Scenario.env (Some "acme/widgets") (Some "7");
      gh_diff_call Scenario.env (Some "acme/widgets") (Some "7")]).
Proof.
  exact (gh_pr_content_reshapes Scenario.no_repr Scenario.env
           (Cases.in_turn [Cases.answer 200 Cases.pull_request]
              (Cases.page 200 "diff --git a/a.py b/a.py"))
           Cases.pull_seven
           [("title", VStr "Fix crash"); ("body", VNone);
            ("head", VDict [("ref", VStr "fix-crash");
                            ("repo", VDict [("full_name", VStr "fork/widgets")])])]
           [("ref", VStr "fix-crash");
            ("repo", VDict [("full_name", VStr "fork/widgets")])]
           [("full_name", VStr "fork/widgets")]
           (conj eq_refl eq_refl) eq_refl eq_refl eq_refl eq_refl eq_refl
           eq_refl eq_refl).
Defined.

Lemma gh_pr_content_raises_on_null_head_or_repo_witness :
  run (Cases.in_turn [Cases.answer 200 Cases.pull_request_of_deleted_fork]
         (Cases.page 200 "diff --git a/a.py b/a.py"))
    (serve Scenario.no_repr Scenario.env (GH GitHub.pr_content) Cases.pull_seven)
  = (inl AttributeError,
     [gh_pull_call Scenario.env (Some "acme/widgets") (Some "7");
      gh_diff_call Scenario.env (Some "acme/widgets") (Some "7")]).
Proof.
  apply (gh_pr_content_raises_on_null_head_or_repo Scenario.no_repr Scenario.env
           (Cases.in_turn [Cases.answer 200 Cases.pull_request_of_deleted_fork]
              (Cases.page 200 "diff --git a/a.py b/a.py"))
           Cases.pull_seven
           [("title", VStr "Fix crash");
            ("head", VDict [("ref", VStr "fix-crash"); ("repo", VNone)])]
           (conj eq_refl eq_refl) eq_refl eq_refl eq_refl eq_refl eq_refl).
  right. exists [("ref", VStr "fix-crash"); ("repo", VNone)].
  split; reflexivity.
Defined.


Lemma issue_info_relays_one_call_witness :
  run (Scenario.always 200 Cases.issue)
    (serve Scenario.no_repr Scenario.env (GH GitHub.issue_info)
       Cases.gh_issue_three)
  = (inr (Json (VDict [("title", VStr "Crash on start");
                       ("description", VStr "It crashes.")]) 200),
     [gh_issue_call Scenario.env (Some "acme/widgets") (Some "3")]).
Proof.
  apply (proj2 (proj1 (issue_info_relays_one_call Scenario.no_repr Scenario.env
                         (Scenario.always 200 Cases.issue) Cases.gh_issue_three
                         (conj eq_refl eq_refl))
                  eq_refl eq_refl)
           [("title", VStr "Crash on start"); ("body", VStr "It crashes.")]);
    reflexivity.
Defined.

Lemma gl_file_content_passes_text_through_witness :
  utf8_valid Cases.raw_bytes = false
  /\ run (fun _ _ => Cases.page 200 Cases.raw_bytes)
       (serve Scenario.no_repr Scenario.env (GL GitLab.file_content)
          Cases.file_on_dev)
     = (inr (Json (VDict [("content", VStr Cases.raw_bytes)]) 200),
        [gl_raw_file_call Scenario.env (Some "acme/widgets") (Some "src") "dev"]).
Proof.
  split; [reflexivity|].
  apply (proj1 (gl_file_content_passes_text_through Scenario.no_repr
                  Scenario.env (fun _ _ => Cases.page 200 Cases.raw_bytes)
                  Cases.file_on_dev "dev" []
                  (conj eq_refl eq_refl) eq_refl eq_refl eq_refl)).
  reflexivity.
Defined.

Lemma gh_file_content_without_content_witness :
  run (Scenario.always 200 Cases.directory_listing)
    (serve Scenario.no_repr Scenario.env (GH GitHub.file_content)
       Cases.file_on_dev)
  = (inl AttributeError,
     [gh_contents_call Scenario.env (Some "acme/widgets") (Some "src") "dev"]).
Proof.
  apply (proj1 (proj2 (proj2
           (gh_file_content_without_content Scenario.no_repr Scenario.env
              (Scenario.always 200 Cases.directory_listing) Cases.file_on_dev
              "dev" [] (conj eq_refl eq_refl) eq_refl eq_refl eq_refl)))
           Cases.directory_listing);
    reflexivity.
Defined.

Lemma gh_file_content_raises_on_bad_base64_witness :
  b64decode (VStr "a") = inl BinasciiError
  /\ run (Scenario.always 200 Cases.truncated_file)
       (serve Scenario.no_repr Scenario.env (GH GitHub.file_content)
          Cases.file_on_dev)
     = (inl BinasciiError,
        [gh_contents_call Scenario.env (Some "acme/widgets") (Some "src") "dev"]).
Proof.
  split; [reflexivity|].
  apply (gh_file_content_raises_on_bad_base64 Scenario.no_repr Scenario.env
           (Scenario.always 200 Cases.truncated_file) Cases.file_on_dev
           "dev" [] [("content", VStr "a")] BinasciiError
           (conj eq_refl eq_refl) eq_refl eq_refl eq_refl eq_refl eq_refl);
    [vm_compute; discriminate | reflexivity].
Defined.

Lemma gh_repo_structure_without_sha_witness :
  run (Scenario.always 200 (VDict [("sha", VStr "")]))
    (serve Scenario.no_repr Scenario.env (GH GitHub.repo_structure)
       Scenario.structure_on_dev)
  = (inr (Json (code_message 404 "Latest commit SHA not found") 404),
     [gh_commits_call Scenario.env (Some "acme/widgets") "dev"]).
Proof.
  exact (gh_repo_structure_without_sha Scenario.no_repr Scenario.env
           (Scenario.always 200 (VDict [("sha", VStr "")]))
           Scenario.structure_on_dev "dev" [] [("sha", VStr "")]
           (conj eq_refl eq_refl) eq_refl eq_refl eq_refl eq_refl eq_refl).
Defined.

Lemma gh_repo_structure_error_needs_json_witness :
  run (fun _ _ => Cases.page 502 "<html>Bad Gateway</html>")
    (serve Scenario.no_repr Scenario.env (GH GitHub.repo_structure)
       Scenario.structure_on_dev)
  = (inl JSONDecodeError,
     [gh_commits_call Scenario.env (Some "acme/widgets") "dev"]).
Proof.
  apply (proj2 (gh_repo_structure_error_needs_json Scenario.no_repr Scenario.env
                  (fun _ _ => Cases.page 502 "<html>Bad Gateway</html>")
                  Scenario.structure_on_dev "dev" []
                  (conj eq_refl eq_refl) eq_refl eq_refl
                  ltac:(vm_compute; discriminate))).
  reflexivity.
Defined.

Lemma gl_mr_content_stops_at_first_failure_witness :
  run (fun _ _ => Cases.page 200 "<html>Sign in</html>")
    (serve Scenario.no_repr Scenario.env (GL GitLab.mr_content)
       Cases.merge_seven)
  = (inl JSONDecodeError,
     [gl_merge_request_call Scenario.env (Some "acme/widgets") (Some "7")]).
Proof.
  apply (proj1 (proj2 (gl_mr_content_stops_at_first_failure Scenario.no_repr
                         Scenario.env
                         (fun _ _ => Cases.page 200 "<html>Sign in</html>")
                         Cases.merge_seven
                         (conj eq_refl eq_refl) eq_refl eq_refl)));
    reflexivity.
Defined.

Lemma gl_comment_raises_on_project_id_that_is_no_string_witness :
  run (Scenario.always 201 VNone)
    (serve Scenario.no_repr Scenario.env (GL GitLab.submit_mr_comment_route)
       Cases.comment_by_id)
  = (inl TypeError, []).
Proof.
  exact (gl_comment_raises_on_project_id_that_is_no_string Scenario.no_repr
           Scenario.env (Scenario.always 201 VNone) Cases.comment_by_id
           [("project_id", VInt 42); ("mr_iid", VInt 7);
            ("comment_body", VStr "LGTM")]
           (conj eq_refl eq_refl) eq_refl eq_refl eq_refl eq_refl eq_refl
           eq_refl).
Defined.

Lemma missing_parameter_fails_fast_witness :
  let answer_of e req :=
    run (Scenario.always 200 VNone) (serve Scenario.no_repr Scenario.env e req) in
  (missing_parameter (GL GitLab.file_content) Cases.file_without_path
   /\ snd (answer_of (GL GitLab.file_content) Cases.file_without_path) = []
   /\ 400 <= outward_status
               (fst (answer_of (GL GitLab.file_content) Cases.file_without_path))
      < 500)
  /\ (missing_parameter (GL GitLab.submit_mr_comment_route) Cases.comment_as_form
      /\ snd (answer_of (GL GitLab.submit_mr_comment_route) Cases.comment_as_form)
         = []
      /\ 400 <= outward_status
                  (fst (answer_of (GL GitLab.submit_mr_comment_route)
                          Cases.comment_as_form))
         < 500)
  /\ (missing_parameter (GL GitLab.submit_mr_comment_route) Cases.comment_as_array
      /\ body_is_no_object Scenario.env (GL GitLab.submit_mr_comment_route)
           Cases.comment_as_array
      /\ snd (answer_of (GL GitLab.submit_mr_comment_route) Cases.comment_as_array)
         = []
      /\ fst (answer_of (GL GitLab.submit_mr_comment_route) Cases.comment_as_array)
         = inl AttributeError).
Proof.
  assert (Hobj : body_is_no_object Scenario.env
                   (GL GitLab.submit_mr_comment_route) Cases.comment_as_array)
    by (split; [reflexivity|]; split; [reflexivity|];
        eexists; split; reflexivity).
  intro answer_of. split; [|split].
  - split; [right; reflexivity|].
    destruct (missing_parameter_fails_fast Scenario.no_repr Scenario.env
                (Scenario.always 200 VNone) (GL GitLab.file_content)
                Cases.file_without_path (conj eq_refl eq_refl)
                (or_intror eq_refl)) as (Hlog & _ & H4xx).
    + intros [H | H]; discriminate H.
    + split; [exact Hlog|]. apply H4xx.
      intros (H & _). discriminate H.
  - split; [left; reflexivity|].
    destruct (missing_parameter_fails_fast Scenario.no_repr Scenario.env
                (Scenario.always 200 VNone) (GL GitLab.submit_mr_comment_route)
                Cases.comment_as_form (conj eq_refl eq_refl)
                (or_introl eq_refl)) as (Hlog & _ & H4xx).
    + intros [H | H]; discriminate H.
    + split; [exact Hlog|]. apply H4xx.
      intros (_ & _ & v & H & _). discriminate H.
  - split; [left; reflexivity|]. split; [exact Hobj|].
    destruct (missing_parameter_fails_fast Scenario.no_repr Scenario.env
                (Scenario.always 200 VNone) (GL GitLab.submit_mr_comment_route)
                Cases.comment_as_array (conj eq_refl eq_refl)
                (or_introl eq_refl)) as (Hlog & Hraise & _).
    + intros [H | H]; discriminate H.
    + split; [exact Hlog | exact (Hraise Hobj)].
Defined.

Lemma json_bodies_conform_witness :
  run (Scenario.always 200 Scenario.hello_file)
    (serve Scenario.no_repr Scenario.env (GH GitHub.file_content)
       Scenario.readme)
  = (inr (Json (VDict [("content", VStr "hello")]) 200),
     [gh_probe Scenario.env (Some "acme/widgets") "main";
      gh_contents_call Scenario.env (Some "acme/widgets") (Some "README.md")
        "main"])
  /\ (has_code_and_message (VDict [("content", VStr "hello")]) = true
      \/ success_shape (GH GitHub.file_content) (VDict [("content", VStr "hello")])
      \/ (GH GitHub.file_content = GH GitHub.file_content /\ 200 = 500
          /\ exists message,
               VDict [("content", VStr "hello")]
               = VDict [("error", VStr message)])).
Proof.
  split; [reflexivity|].
  apply (json_bodies_conform Scenario.no_repr Scenario.env
           (Scenario.always 200 Scenario.hello_file) (GH GitHub.file_content)
           Scenario.readme (VDict [("content", VStr "hello")]) 200
           [gh_probe Scenario.env (Some "acme/widgets") "main";
            gh_contents_call Scenario.env (Some "acme/widgets")
              (Some "README.md") "main"]).
  reflexivity.
Defined.

Lemma gh_comment_post_is_sent_witness :
  snd (run (Scenario.always 201 VNone)
         (serve Scenario.no_repr Scenario.env
            (GH GitHub.submit_pr_comment_route) Scenario.comment))
  = [Scenario.comment_post].
Proof.
  exact (gh_comment_post_is_sent Scenario.no_repr Scenario.env
           (Scenario.always 201 VNone) Scenario.comment Cases.comment_fields
           (conj eq_refl eq_refl) eq_refl eq_refl eq_refl eq_refl eq_refl).
Defined.

